(** * Smart-home simulation engine: event store, clock, usage tracking

    A shallow embedding of the simulation-time core of the smart-home
    dashboard (EventStore.py, AppClock.py, BooleanStateTracker.py,
    Formulas.py, and the user-event route of app.py), together with the
    properties its specification states about it.

    Conventions of the embedding.
    - Python [int] is [Z]; Python [float] is idealised as an exact rational
      [Q], compared with [Qeq] ([==]).
    - A [dict] is a [gmap]; [d.get(k)] is [d !! k].
    - An attribute that may not exist yet ([minTime] before the first insert,
      [appTimeZero] before [start()]) is an [option]; an operation that would
      raise returns [None].
    - The real-time source [time.time()] is an explicit argument: every
      reading of the wall clock is a parameter of the operation reading it. *)

From stdpp Require Import gmap strings list fin_maps.
From Stdlib Require Import ZArith QArith Qabs Qminmax Lqa Lia.

Local Open Scope Z_scope.

(** ** Event.py *)

Module Event.

(** [new_value] is either an integer or a boolean. *)
Inductive Value :=
| VInt (z : Z)
| VBool (b : bool).

Record Event := {
  time : Z;
  state_type : string;
  state_key : string;
  new_value : Value;
  message : string;
}.

(** [event["time"] = t] *)
Definition set_time (e : Event) (t : Z) : Event :=
  {| time := t; state_type := state_type e; state_key := state_key e;
     new_value := new_value e; message := message e |}.

(** [isinstance(event["new_value"], bool)] *)
Definition isBooleanEvent (e : Event) : bool :=
  match new_value e with VBool _ => true | VInt _ => false end.

Definition isThermostatEvent (e : Event) : bool :=
  bool_decide (state_key e = "thermostatTemp"%string).

(** The value as Python compares it with an integer: [bool] is a subclass
    of [int], [True] is 1 and [False] is 0. *)
Definition int_value (v : Value) : Z :=
  match v with VInt z => z | VBool b => if b then 1 else 0 end.

Definition UserGeneratedBooleanStateType : list string :=
  ["door"; "window"; "light"]%string.

Definition UserGeneratedBooleanStateKey : list string :=
  ["bedroom1OverheadLight"; "bedroom1Lamp1"; "bedroom1Lamp2";
   "bedroom1Window1"; "bedroom1Window2";
   "bedroom2OverheadLight"; "bedroom2Lamp1"; "bedroom2Lamp2";
   "bedroom2Window1"; "bedroom2Window2";
   "bedroom3OverheadLight"; "bedroom3Lamp1"; "bedroom3Lamp2";
   "bedroom3Window1"; "bedroom3Window2";
   "bathroom1OverheadLight"; "bathroom1Window";
   "bathroom2OverheadLight"; "bathroom2Window";
   "frontDoor"; "backDoor"; "garageHouseDoor";
   "garageCarDoor1"; "garageCarDoor2";
   "livingRoomOverheadLight"; "livingRoomLamp1"; "livingRoomLamp2";
   "livingRoomWindow1"; "livingRoomWindow2"; "livingRoomWindow3";
   "kitchenOverheadLight"; "kitchenWindow1"; "kitchenWindow2"]%string.

(** [UserGeneratedThermostatEvent]: the literal type and key; the value is
    an [int], which a [bool] is as well. *)
Definition isUserGeneratedThermostatEvent (e : Event) : bool :=
  bool_decide (state_type e = "temp"%string)
  && bool_decide (state_key e = "thermostatTemp"%string).

(** [UserGeneratedBooleanEvent]: a user-changeable type and key, a boolean
    value. *)
Definition isUserGeneratedBooleanEvent (e : Event) : bool :=
  bool_decide (state_type e ∈ UserGeneratedBooleanStateType)
  && bool_decide (state_key e ∈ UserGeneratedBooleanStateKey)
  && isBooleanEvent e.

(** [check_type("`event`", event, UserGeneratedEvent)], the union of the
    two typed dictionaries. *)
Definition isUserGeneratedEvent (e : Event) : bool :=
  isUserGeneratedThermostatEvent e || isUserGeneratedBooleanEvent e.

End Event.

#[global] Instance Value_eq_dec : EqDecision Event.Value.
Proof. solve_decision. Defined.

#[global] Instance Event_eq_dec : EqDecision Event.Event.
Proof. solve_decision. Defined.

(** ** EventStore.py *)

Module EventStore.

Inductive EventType := PreGenerated | UserGenerated.

#[global] Instance EventType_eq_dec : EqDecision EventType.
Proof. solve_decision. Defined.

(** The innermost dictionary, [Dict[EventType, Event]]: at most one event
    under each of the two literal keys. *)
Record Container := {
  pre_generated : option Event.Event;
  user_generated : option Event.Event;
}.

#[global] Instance Container_eq_dec : EqDecision Container.
Proof. solve_decision. Defined.

Definition empty_container : Container :=
  {| pre_generated := None; user_generated := None |}.

(** [container.get(eventType)] *)
Definition container_get (c : Container) (ty : EventType)
  : option Event.Event :=
  match ty with
  | PreGenerated => pre_generated c
  | UserGenerated => user_generated c
  end.

(** [container[eventType] = event] *)
Definition container_set (c : Container) (ty : EventType) (e : Event.Event)
  : Container :=
  match ty with
  | PreGenerated =>
      {| pre_generated := Some e; user_generated := user_generated c |}
  | UserGenerated =>
      {| pre_generated := pre_generated c; user_generated := Some e |}
  end.

(** [container.pop("user-generated", None)] *)
Definition container_pop_user (c : Container) : Container :=
  {| pre_generated := pre_generated c; user_generated := None |}.

(** [EventMap = Dict[int, Dict[StateKey, Dict[EventType, Event]]]] *)
Abbreviation EventMap := (gmap Z (gmap string Container)).

(** What one instance sees: [self.map], and its own [minTime] and
    [maxTime], which do not exist before the first insert. *)
Record EventStore := {
  map : EventMap;
  minTime : option Z;
  maxTime : option Z;
}.

(** A store on which nothing was inserted. *)
Definition fresh : EventStore :=
  {| map := ∅; minTime := None; maxTime := None |}.

Definition isEmpty (s : EventStore) : bool := bool_decide (map s = ∅).

(** One iteration of the loop of [putEvents]. *)
Definition putEvent (ty : EventType) (s : EventStore) (e : Event.Event)
  : EventStore :=
  let t := Event.time e in
  let k := Event.state_key e in
  let lo :=
    match minTime s with
    | Some lo => if decide (t < lo) then t else lo
    | None => t                      (* t < float("inf") *)
    end in
  let hi :=
    match maxTime s with
    | Some hi => if decide (t > hi) then t else hi
    | None => t                      (* t > float("-inf") *)
    end in
  let m1 :=
    match map s !! t with
    | None => <[t := ∅]> (map s)
    | Some _ => map s
    end in
  let d := default ∅ (m1 !! t) in
  let d1 :=
    match d !! k with
    | None => <[k := empty_container]> d
    | Some _ => d
    end in
  let c := default empty_container (d1 !! k) in
  {| map := <[t := <[k := container_set c ty e]> d1]> m1;
     minTime := Some lo;
     maxTime := Some hi |}.

Definition putEvents (ty : EventType) (s : EventStore)
    (events : list Event.Event) : EventStore :=
  foldl (putEvent ty) s events.

Definition putPreGeneratedEvents := putEvents PreGenerated.
Definition putUserGeneratedEvents := putEvents UserGenerated.

(** [for stateKey in list(self.map[time]): self.map[time][stateKey].pop(...)] *)
Definition clear_keys (d : gmap string Container) : gmap string Container :=
  foldl (fun d k => alter container_pop_user k d) d (map_to_list d).*1.

(** The body of the loop over [time] in [clearUserGeneratedEvents]. *)
Definition clear_time (m : EventMap) (t : Z) : EventMap :=
  match m !! t with
  | None => m
  | Some d => <[t := clear_keys d]> m
  end.

(** Raises [AttributeError] on a store without [minTime] or [maxTime]. *)
Definition clearUserGeneratedEvents (s : EventStore) : option EventStore :=
  lo ← minTime s;
  hi ← maxTime s;
  Some {| map := foldl clear_time (map s) (seqZ lo (hi + 1 - lo));
          minTime := Some lo;
          maxTime := Some hi |}.

(** [self.map[time][stateKey][eventType]], a [KeyError] when absent. *)
Definition getEvent (s : EventStore) (t : Z) (k : string) (ty : EventType)
  : option Event.Event :=
  d ← map s !! t; c ← d !! k; container_get c ty.

(** [self.map.get(time, {}).get(stateKey, {}).get(eventType)] *)
Definition safeGetEvent (s : EventStore) (t : Z) (k : string)
    (ty : EventType) : option Event.Event :=
  let d := default ∅ (map s !! t) in
  let c := default empty_container (d !! k) in
  container_get c ty.

Definition safeGetPreGeneratedEvent s t k := safeGetEvent s t k PreGenerated.
Definition safeGetUserGeneratedEvent s t k := safeGetEvent s t k UserGenerated.

(** The inner function of [yieldEvents].  An event is a dictionary of five
    entries, so it is truthy: [a or b] is [a] whenever [a] is present. *)
Definition getEventFromContainer (eventType : option EventType)
    (c : Container) : option Event.Event :=
  match eventType with
  | Some ty => container_get c ty
  | None =>
      match container_get c UserGenerated with
      | Some e => Some e
      | None => container_get c PreGenerated
      end
  end.

(** What the body of the loop over [time] yields.  [if stateKeys:] is false
    for [None] and for the empty set alike.  The keys of one time slot are
    visited in the order of [elements] and [map_to_list]. *)
Definition yield_time (m : EventMap) (stateKeys : option (gset string))
    (eventType : option EventType) (t : Z) : list Event.Event :=
  match m !! t with
  | None => []
  | Some d =>
      let all :=
        kc ← map_to_list d;
        option_list (getEventFromContainer eventType kc.2) in
      match stateKeys with
      | Some ks =>
          if decide (ks = ∅) then all
          else
            k ← elements ks;
            match d !! k with
            | None => []
            | Some c => option_list (getEventFromContainer eventType c)
            end
      | None => all
      end
  end.

(** The events the generator yields, in order; [None] when reading
    [self.minTime] or [self.maxTime] raises. *)
Definition yieldEvents (s : EventStore) (startTime endTime : option Z)
    (stateKeys : option (gset string)) (eventType : option EventType)
  : option (list Event.Event) :=
  if isEmpty s then Some []
  else
    startTime ← (match startTime with Some t => Some t | None => minTime s end);
    endTime ← (match endTime with
               | Some t => Some t
               | None => (λ hi, hi + 1) <$> maxTime s
               end);
    Some (t ← seqZ startTime (endTime - startTime);
          yield_time (map s) stateKeys eventType t).

Definition yieldPreGeneratedEvents s startTime endTime stateKeys :=
  yieldEvents s startTime endTime stateKeys (Some PreGenerated).

(** [next(self.yieldEvents(stateKeys={stateKey}))] *)
Definition getFirstEvent (s : EventStore) (k : string)
  : option Event.Event :=
  evs ← yieldEvents s None None (Some {[k]}) None; head evs.

(** *** Sequences of operations on one store *)

Inductive Op :=
| Put (ty : EventType) (events : list Event.Event)
| Clear.

Definition step (s : EventStore) (o : Op) : option EventStore :=
  match o with
  | Put ty events => Some (putEvents ty s events)
  | Clear => clearUserGeneratedEvents s
  end.

Fixpoint run (ops : list Op) (s : EventStore) : option EventStore :=
  match ops with
  | [] => Some s
  | o :: ops => s' ← step s o; run ops s'
  end.

(** Some event of some provenance is stored at time [t]. *)
Definition stored_at (s : EventStore) (t : Z) : Prop :=
  ∃ k ty e, safeGetEvent s t k ty = Some e.

(** [minTime] and [maxTime] bound the times of all stored events. *)
Definition bounds_cover (s : EventStore) : Prop :=
  ∀ t, stored_at s t →
    ∃ lo hi, minTime s = Some lo ∧ maxTime s = Some hi ∧ lo ≤ t ≤ hi.

(** Both bounds are the time of a stored event. *)
Definition bounds_attained (s : EventStore) : Prop :=
  (∀ lo, minTime s = Some lo → stored_at s lo) ∧
  (∀ hi, maxTime s = Some hi → stored_at s hi).

(** The tightest bounds: they cover every stored event and are attained. *)
Definition bounds_tight (s : EventStore) : Prop :=
  bounds_cover s ∧ bounds_attained s.

(** The range [minTime, maxTime] of [s'] contains that of [s]. *)
Definition bounds_extend (s s' : EventStore) : Prop :=
  (∀ lo, minTime s = Some lo → ∃ lo', minTime s' = Some lo' ∧ lo' ≤ lo) ∧
  (∀ hi, maxTime s = Some hi → ∃ hi', maxTime s' = Some hi' ∧ hi ≤ hi').

Definition is_put (o : Op) : bool :=
  match o with Put _ _ => true | Clear => false end.

(** The event [e] lies in slot [(t, k)]. *)
Definition at_slot (t : Z) (k : string) (e : Event.Event) : Prop :=
  Event.time e = t ∧ Event.state_key e = k.

#[global] Instance at_slot_dec t k e : Decision (at_slot t k e).
Proof. unfold at_slot. apply _. Defined.

(** [t] lies in the timeframe of a range query. *)
Definition in_timeframe (s : EventStore) (startTime endTime : option Z)
    (t : Z) : Prop :=
  (match startTime with
   | Some a => a ≤ t
   | None => ∃ lo, minTime s = Some lo ∧ lo ≤ t
   end) ∧
  (match endTime with
   | Some b => t < b
   | None => ∃ hi, maxTime s = Some hi ∧ t ≤ hi
   end).

(** [k] passes the key filter of a range query. *)
Definition key_selected (stateKeys : option (gset string)) (k : string)
  : Prop :=
  match stateKeys with
  | Some ks => ks = ∅ ∨ k ∈ ks
  | None => True
  end.

(** *** The class attribute and the instances

    [map: EventMap = {}] in the class body creates one dictionary when the
    class is defined.  No method assigns [self.map]: every instance reads
    and mutates that one dictionary.  [minTime] and [maxTime] are assigned
    on the instance by [putEvents]. *)

Record Instance := {
  inst_minTime : option Z;
  inst_maxTime : option Z;
}.

Record Heap := {
  class_map : EventMap;
  instances : list Instance;
}.

(** The state after the class definition. *)
Definition initial : Heap := {| class_map := ∅; instances := [] |}.

(** [EventStore()]: a new instance without attributes of its own. *)
Definition new (h : Heap) : nat * Heap :=
  (length (instances h),
   {| class_map := class_map h;
      instances :=
        instances h ++ [{| inst_minTime := None; inst_maxTime := None |}] |}).

(** What instance [i] sees through [self]. *)
Definition self (h : Heap) (i : nat) : option EventStore :=
  inst ← instances h !! i;
  Some {| map := class_map h;
          minTime := inst_minTime inst;
          maxTime := inst_maxTime inst |}.

(** Writing back what a method did through [self] of instance [i]. *)
Definition write_back (h : Heap) (i : nat) (s : EventStore) : Heap :=
  {| class_map := map s;
     instances :=
       <[i := {| inst_minTime := minTime s; inst_maxTime := maxTime s |}]>
         (instances h) |}.

(** [i.putEvents(eventType, *events)] *)
Definition putEvents_on (h : Heap) (i : nat) (ty : EventType)
    (events : list Event.Event) : option Heap :=
  s ← self h i; Some (write_back h i (putEvents ty s events)).

(** Every time present in the dictionary lies within the bounds. *)
Definition dom_covered (s : EventStore) : Prop :=
  ∀ t, is_Some (map s !! t) →
    ∃ lo hi, minTime s = Some lo ∧ maxTime s = Some hi ∧ lo ≤ t ≤ hi.

(** Every event is stored under its own time and state key. *)
Definition slots_ok (s : EventStore) : Prop :=
  ∀ t k ty e, safeGetEvent s t k ty = Some e → at_slot t k e.

(** The invariant of a store that only its own operations touched. *)
Definition store_inv (s : EventStore) : Prop :=
  dom_covered s ∧ slots_ok s.

Definition getPreGeneratedEvent s t k := getEvent s t k PreGenerated.
Definition getUserGeneratedEvent s t k := getEvent s t k UserGenerated.

Definition yieldUserGeneratedEvents s startTime endTime stateKeys :=
  yieldEvents s startTime endTime stateKeys (Some UserGenerated).

(** [self.getFirstEvent(stateKey)["new_value"]] *)
Definition getFirstEventValue (s : EventStore) (k : string)
  : option Event.Value :=
  Event.new_value <$> getFirstEvent s k.

(** The event of slot [(t, k)] that a query with the given provenance, or
    with none, sees. *)
Definition seen (eventType : option EventType) (s : EventStore) (t : Z)
    (k : string) : option Event.Event :=
  match eventType with
  | Some ty => safeGetEvent s t k ty
  | None =>
      match safeGetUserGeneratedEvent s t k with
      | Some u => Some u
      | None => safeGetPreGeneratedEvent s t k
      end
  end.

(** The store can be reached from a fresh one by its own operations. *)
Definition reachable (s : EventStore) : Prop :=
  ∃ ops, run ops fresh = Some s.

(** The bounds exist exactly when the dictionary is not empty. *)
Definition bounds_iff_nonempty (s : EventStore) : Prop :=
  (map s = ∅ ↔ minTime s = None) ∧ (map s = ∅ ↔ maxTime s = None).

End EventStore.

(** ** constants.py *)

Module Constants.
Definition MIN_APP_TIME : Z := 0.
Definition MAX_APP_TIME : Z := 5184000.
Definition MIN_SPEEDUP_FACTOR : Z := 1.
Definition MAX_SPEEDUP_FACTOR : Z := 3600.
Definition DEFAULT_SPEEDUP_FACTOR : Z := 60.
Definition MIN_THERMOSTAT_TEMP : Z := 55.
Definition MAX_THERMOSTAT_TEMP : Z := 85.
End Constants.

(** ** AppClock.py *)

Module AppClock.
Local Open Scope Q_scope.

(** [appTimeZero] and [realTimeZero] do not exist before [start()]. *)
Record AppClock := {
  running : bool;
  minTime : Q;
  maxTime : Q;
  speedupFactor : Q;
  appTimeZero : option Q;
  realTimeZero : option Q;
}.

(** [AppClock(minTime, maxTime, speedupFactor)] *)
Definition init (minTime maxTime speedupFactor : Q) : AppClock :=
  {| running := false; minTime := minTime; maxTime := maxTime;
     speedupFactor := speedupFactor;
     appTimeZero := None; realTimeZero := None |}.

(** [now] is the reading of the wall clock. *)
Definition start (c : AppClock) (now : Q) : AppClock :=
  {| running := true; minTime := minTime c; maxTime := maxTime c;
     speedupFactor := speedupFactor c;
     appTimeZero := Some (minTime c); realTimeZero := Some now |}.

(** [None] is the [AttributeError] of a clock that was never started. *)
Definition time (c : AppClock) (now : Q) : option Q :=
  realTimeZero ← realTimeZero c;
  let realTimePassed := now - realTimeZero in
  let appTimePassed := realTimePassed * speedupFactor c in
  appTimeZero ← appTimeZero c;
  let unboundAppTime := appTimeZero + appTimePassed in
  Some (Qmin unboundAppTime (maxTime c)).

Definition getSpeedupFactor (c : AppClock) : Q := speedupFactor c.

(** The wall clock is read twice: [now1] inside [self.time()], then
    [now2] for the new [realTimeZero]. *)
Definition setSpeedupFactor (c : AppClock) (now1 now2 : Q)
    (speedupFactor : Q) : option AppClock :=
  t ← time c now1;
  Some {| running := running c; minTime := minTime c; maxTime := maxTime c;
          speedupFactor := speedupFactor;
          appTimeZero := Some t; realTimeZero := Some now2 |}.

(** [start()] or [setSpeedupFactor] has set both anchors. *)
Definition started (c : AppClock) : Prop :=
  is_Some (appTimeZero c) ∧ is_Some (realTimeZero c).

(** [int(x)] of a float truncates towards zero. *)
Definition int (x : Q) : Z := Z.quot (Qnum x) (Zpos (Qden x)).

(** [int(self.time()) / secondsPerDay] *)
Definition getAbsoluteSimulationTimeDays (c : AppClock) (now : Q)
  : option Q :=
  let secondsPerDay := 86400 in
  t ← time c now;
  let elapsedTime := int t in
  Some (inject_Z elapsedTime / secondsPerDay).

End AppClock.

(** ** Formulas.py *)

Module Formulas.
Local Open Scope Q_scope.

(** [1 if a > b else -1] *)
Definition direction (a b : Q) : Q :=
  if Qlt_le_dec b a then 1 else -1.

Definition naturalIndoorTempChange
    (indoorTemp outdoorTemp totalTime openDoorTime openWindowTime : Q) : Q :=
  let baseIndoorChangePerSecPerOutdoorDiff := 2 / (3600 * 10) in
  let indoorChangePerOpenDoorSecPerOutdoorDiff := 2 / (60 * 5 * 10) in
  let indoorChangePerOpenWindowSecPerOutdoorDiff := 1 / (60 * 5 * 10) in
  let outdoorDiff := Qabs (outdoorTemp - indoorTemp) in
  let changeDirection := direction outdoorTemp indoorTemp in
  let baseChange :=
    baseIndoorChangePerSecPerOutdoorDiff * totalTime * outdoorDiff in
  let openDoorChange :=
    indoorChangePerOpenDoorSecPerOutdoorDiff * openDoorTime * outdoorDiff in
  let openWindowChange :=
    indoorChangePerOpenWindowSecPerOutdoorDiff * openWindowTime * outdoorDiff in
  let maxPossibleChange := outdoorDiff in
  let unclippedChange := baseChange + openDoorChange + openWindowChange in
  let actualChange := Qmin unclippedChange maxPossibleChange in
  changeDirection * actualChange.

(** [abs(thermostatTemp - indoorTemp) > 2] *)
Definition isHvacRunning (indoorTemp thermostatTemp : Q) : bool :=
  if Qlt_le_dec 2 (Qabs (thermostatTemp - indoorTemp)) then true else false.

Definition hvacElectricityUsage (hvacRunningTime : Q) : Q :=
  let electricityUsageRate := 3500 / 3600 in
  electricityUsageRate * hvacRunningTime.

Definition hvacIndoorTempChangeAndElectricityUsage
    (indoorTemp thermostatTemp totalTime : Q) : Q * Q :=
  if negb (isHvacRunning indoorTemp thermostatTemp) then (0, 0)
  else
    let changePerSecond := 1 / 60 in
    let difference := Qabs (thermostatTemp - indoorTemp) in
    let changeDirection := direction thermostatTemp indoorTemp in
    let maxPossibleChange := changePerSecond * totalTime in
    let actualChange := Qmin difference maxPossibleChange in
    let hvacRunningTime := actualChange / changePerSecond in
    let hvacElectricityUsage := hvacElectricityUsage hvacRunningTime in
    (changeDirection * actualChange, hvacElectricityUsage).

Definition indoorTempAndHvacElectricityUsage
    (indoorTemp outdoorTemp thermostatTemp totalTime
     openDoorTime openWindowTime : Q) : Q * Q :=
  let naturalChange :=
    naturalIndoorTempChange
      indoorTemp outdoorTemp totalTime openDoorTime openWindowTime in
  let '(hvacChange, electricityUsage) :=
    hvacIndoorTempChangeAndElectricityUsage
      (indoorTemp + naturalChange) thermostatTemp totalTime in
  (indoorTemp + naturalChange + hvacChange, electricityUsage).

Definition usage (usageRate totalTime : Q) : Q := usageRate * totalTime.

Definition electricityUsage (electricityUsageRate totalTime : Q) : Q :=
  usage electricityUsageRate totalTime.

Definition waterUsage (waterUsageRate totalTime : Q) : Q :=
  usage waterUsageRate totalTime.

Definition hotWaterUsage (waterUsageRate totalTime percentHot : Q) : Q :=
  waterUsage waterUsageRate totalTime * percentHot.

Definition waterHeaterRunningTime (waterToHeat : Q) : Q :=
  let waterHeaterSpeed := 1 / 4 / 60 in
  waterToHeat / waterHeaterSpeed.

Definition waterHeaterElectricityUsage
    (waterUsageRate totalTime percentHot : Q) : Q :=
  let electricityUsageRate := 4500 / 3600 in
  let hotWaterUsage := hotWaterUsage waterUsageRate totalTime percentHot in
  let runningTime := waterHeaterRunningTime hotWaterUsage in
  electricityUsageRate * runningTime.

(** [0.12] is [12 # 100]. *)
Definition electricityCost (electricityUsage totalTime : Q) : Q :=
  let costRate := (12 # 100) / 1000 / 3600 in
  costRate * electricityUsage * totalTime.

(** [2.52] is [252 # 100], [7.48] is [748 # 100]. *)
Definition waterCost (waterUsage : Q) : Q :=
  let costRate := (252 # 100) / 100 / (748 # 100) in
  costRate * waterUsage.

End Formulas.

(** ** UsageRate.py *)

Module UsageRate.
Local Open Scope Q_scope.

Record WaterUsageRate := {
  gallonsPerSecond : Q;
  percentHot : Q;
}.

(** The values are the [wattsPerSecond] entries. *)
Definition ELECTRICITY_USAGE_RATE_MAP : gmap string Q :=
  list_to_map
    [("light", 60 / 3600); ("bathExhaustFan", 30 / 3600);
     ("refrigerator", 150 / 3600); ("microwave", 1100 / 3600);
     ("stove", 3500 / 3600); ("oven", 4000 / 3600);
     ("livingRoomTv", 636 / 3600); ("bedroomTv", 100 / 3600);
     ("dishWasher", 1800 / 3600); ("clothesWasher", 500 / 3600);
     ("clothesDryer", 3000 / 3600)]%string.

Definition WATER_USAGE_RATE_MAP : gmap string WaterUsageRate :=
  list_to_map
    [("shower", {| gallonsPerSecond := 25 / 15 / 60;
                   percentHot := 65 # 100 |});
     ("bath", {| gallonsPerSecond := 30 / 30 / 60;
                 percentHot := 65 # 100 |});
     ("dishWasher", {| gallonsPerSecond := 6 / 45 / 60;
                       percentHot := 1 |});
     ("clothesWasher", {| gallonsPerSecond := 20 / 30 / 60;
                          percentHot := 85 # 100 |})]%string.

End UsageRate.

(** ** BooleanStateTracker.py *)

Module BooleanStateTracker.

Record BooleanStateTracker := {
  type : string;
  key : string;
  value : bool;
  lastTimeTrue : Z;
  totalTimeTrue : Z;
  electricityUsageRate : Q;
  waterUsageRate : UsageRate.WaterUsageRate;
}.

(** The boolean of a [BooleanEvent]; the [@typechecked] decorator raises
    on an event whose [new_value] is not a boolean. *)
Definition bool_value (e : Event.Event) : option bool :=
  match Event.new_value e with
  | Event.VBool b => Some b
  | Event.VInt _ => None
  end.

(** [BooleanStateTracker(firstEvent)] *)
Definition init (firstEvent : Event.Event) : option BooleanStateTracker :=
  v ← bool_value firstEvent;
  let type := Event.state_type firstEvent in
  Some {|
    type := type;
    key := Event.state_key firstEvent;
    value := v;
    lastTimeTrue := Event.time firstEvent;
    totalTimeTrue := 0;
    electricityUsageRate :=
      default 0%Q (UsageRate.ELECTRICITY_USAGE_RATE_MAP !! type);
    waterUsageRate :=
      default {| UsageRate.gallonsPerSecond := 0;
                 UsageRate.percentHot := 0 |}
              (UsageRate.WATER_USAGE_RATE_MAP !! type);
  |}.

Definition set_value_total (tr : BooleanStateTracker) (v : bool)
    (total : Z) : BooleanStateTracker :=
  {| type := type tr; key := key tr; value := v;
     lastTimeTrue := lastTimeTrue tr; totalTimeTrue := total;
     electricityUsageRate := electricityUsageRate tr;
     waterUsageRate := waterUsageRate tr |}.

Definition set_value_last (tr : BooleanStateTracker) (v : bool)
    (last : Z) : BooleanStateTracker :=
  {| type := type tr; key := key tr; value := v;
     lastTimeTrue := last; totalTimeTrue := totalTimeTrue tr;
     electricityUsageRate := electricityUsageRate tr;
     waterUsageRate := waterUsageRate tr |}.

(** [None] is the [TypeError] of the decorator or the [ValueError] of an
    event for another key. *)
Definition processEvent (tr : BooleanStateTracker) (event : Event.Event)
  : option BooleanStateTracker :=
  new_value ← bool_value event;
  if negb (bool_decide (Event.state_key event = key tr)) then None
  else if value tr && negb new_value then        (* Closed or turned off *)
    Some (set_value_total tr new_value
            (totalTimeTrue tr + (Event.time event - lastTimeTrue tr)))
  else if negb (value tr) && new_value then      (* Opened or turned on *)
    Some (set_value_last tr new_value (Event.time event))
  else Some tr.

Definition resetTotalTimeTrue (tr : BooleanStateTracker)
  : BooleanStateTracker :=
  set_value_total tr (value tr) 0.

Definition getTotalTimeTrue (tr : BooleanStateTracker) : Z :=
  totalTimeTrue tr.

Definition getTotalElectricityUsage (tr : BooleanStateTracker) : Q :=
  let baseUsage :=
    Formulas.electricityUsage
      (electricityUsageRate tr) (inject_Z (totalTimeTrue tr)) in
  let waterHeaterUsage :=
    Formulas.waterHeaterElectricityUsage
      (UsageRate.gallonsPerSecond (waterUsageRate tr))
      (inject_Z (totalTimeTrue tr))
      (UsageRate.percentHot (waterUsageRate tr)) in
  (baseUsage + waterHeaterUsage)%Q.

Definition getTotalWaterUsage (tr : BooleanStateTracker) : Q :=
  Formulas.waterUsage
    (UsageRate.gallonsPerSecond (waterUsageRate tr))
    (inject_Z (totalTimeTrue tr)).

(** Events processed one after the other by one tracker. *)
Fixpoint processEvents (tr : BooleanStateTracker)
    (events : list Event.Event) : option BooleanStateTracker :=
  match events with
  | [] => Some tr
  | event :: events => tr' ← processEvent tr event; processEvents tr' events
  end.

(** The times of the events do not decrease, starting from [t]. *)
Fixpoint in_order (t : Z) (events : list Event.Event) : Prop :=
  match events with
  | [] => True
  | event :: events =>
      t ≤ Event.time event ∧ in_order (Event.time event) events
  end.

End BooleanStateTracker.

Module BooleanStateTrackerMap.

(** [Dict[BooleanStateType, Dict[BooleanStateKey, BooleanStateTracker]]] *)
Abbreviation TrackerMap :=
  (gmap string (gmap string BooleanStateTracker.BooleanStateTracker)).

Definition init : TrackerMap := ∅.

Definition processEvent (m : TrackerMap) (event : Event.Event)
  : option TrackerMap :=
  let stateType := Event.state_type event in
  let stateKey := Event.state_key event in
  let m1 :=
    match m !! stateType with
    | None => <[stateType := ∅]> m
    | Some _ => m
    end in
  let d := default ∅ (m1 !! stateType) in
  tracker ← (match d !! stateKey with
             | None => BooleanStateTracker.init event
             | Some tracker => Some tracker
             end);
  tracker' ← BooleanStateTracker.processEvent tracker event;
  Some (<[stateType := <[stateKey := tracker']> d]> m1).

(** The events of a window, processed in order. *)
Fixpoint processEvents (m : TrackerMap) (events : list Event.Event)
  : option TrackerMap :=
  match events with
  | [] => Some m
  | event :: events => m' ← processEvent m event; processEvents m' events
  end.

Definition clear (m : TrackerMap) : TrackerMap := ∅.

(** [for tracker in trackers.values(): tracker.resetTotalTimeTrue()] *)
Definition reset_trackers
    (trackers : gmap string BooleanStateTracker.BooleanStateTracker)
  : gmap string BooleanStateTracker.BooleanStateTracker :=
  BooleanStateTracker.resetTotalTimeTrue <$> trackers.

(** [if stateTypes:] is false for [None] and for the empty set. *)
Definition resetTotalTimeTrue (m : TrackerMap)
    (stateTypes : option (gset string)) : TrackerMap :=
  let all : TrackerMap := reset_trackers <$> m in
  match stateTypes with
  | Some stateTypes =>
      if decide (stateTypes = ∅) then all
      else
        foldl (λ (m : TrackerMap) stateType,
                 alter reset_trackers stateType m)
              m (elements stateTypes)
  | None => all
  end.

(** [self.map[stateType][stateKey]] *)
Definition tracker (m : TrackerMap) (stateType stateKey : string)
  : option BooleanStateTracker.BooleanStateTracker :=
  d ← m !! stateType; d !! stateKey.

Definition resetOpenDoorTime (m : TrackerMap) : TrackerMap :=
  resetTotalTimeTrue m (Some {["door"%string]}).

Definition resetOpenWindowTime (m : TrackerMap) : TrackerMap :=
  resetTotalTimeTrue m (Some {["window"%string]}).

(** [for tracker in trackers.values(): total += f(tracker)] *)
Definition add_trackers {A} (add : A → A → A)
    (f : BooleanStateTracker.BooleanStateTracker → A) (total : A)
    (trackers : gmap string BooleanStateTracker.BooleanStateTracker) : A :=
  foldl (λ total kv, add total (f kv.2)) total (map_to_list trackers).

(** The two loops shared by the totals: over the given state types when
    there are any, over all tracked state types otherwise. *)
Definition total_of {A} (add : A → A → A) (zero : A)
    (f : BooleanStateTracker.BooleanStateTracker → A)
    (m : TrackerMap) (stateTypes : option (gset string)) : A :=
  let all :=
    foldl (λ total kd, add_trackers add f total kd.2) zero (map_to_list m) in
  match stateTypes with
  | Some stateTypes =>
      if decide (stateTypes = ∅) then all
      else
        foldl (λ total stateType,
                 add_trackers add f total (default ∅ (m !! stateType)))
              zero (elements stateTypes)
  | None => all
  end.

Definition getTotalTimeTrue (m : TrackerMap)
    (stateTypes : option (gset string)) : Z :=
  total_of Z.add 0 BooleanStateTracker.getTotalTimeTrue m stateTypes.

Definition getTotalOpenDoorTime (m : TrackerMap) : Z :=
  getTotalTimeTrue m (Some {["door"%string]}).

Definition getTotalOpenWindowTime (m : TrackerMap) : Z :=
  getTotalTimeTrue m (Some {["window"%string]}).

Definition getTotalElectricityUsage (m : TrackerMap) : Q :=
  total_of Qplus 0%Q BooleanStateTracker.getTotalElectricityUsage m None.

Definition getTotalWaterUsage (m : TrackerMap) : Q :=
  total_of Qplus 0%Q BooleanStateTracker.getTotalWaterUsage m None.

(** Every tracker is stored under its own state key. *)
Definition keys_ok (m : TrackerMap) : Prop :=
  ∀ stateType stateKey tr,
    tracker m stateType stateKey = Some tr →
    BooleanStateTracker.key tr = stateKey.

End BooleanStateTrackerMap.

(** ** app.py: the route of user-generated events *)

Module App.

(** The body and the status of a response. *)
Definition Response : Type := string * Z.

Definition SUCCESS : Response := ("Success"%string, 200).

(** The module-level objects the route uses. *)
Record State := {
  APP_CLOCK : AppClock.AppClock;
  EVENT_STORE : EventStore.EventStore;
}.

(** [POST /user-generated-event] with the event of the request body;
    [now] is the reading of the wall clock in [APP_CLOCK.time()].  The
    body of the first failure continues with the explanation of the type
    checker.  [None] is an exception leaving the route. *)
Definition userGeneratedEvent (st : State) (now : Q) (event : Event.Event)
  : option (Response * State) :=
  if negb (Event.isUserGeneratedEvent event) then
    Some (("The value of `event` is invalid... "%string, 400), st)
  else if Event.isThermostatEvent event
          && bool_decide (Event.int_value (Event.new_value event)
                          < Constants.MIN_THERMOSTAT_TEMP) then
    Some (("The thermostat temperature should not be less than 55"%string,
           400), st)
  else if Event.isThermostatEvent event
          && bool_decide (Event.int_value (Event.new_value event)
                          > Constants.MAX_THERMOSTAT_TEMP) then
    Some (("The thermostat temperature should not be greater than 85"%string,
           400), st)
  else
    t ← AppClock.time (APP_CLOCK st) now;
    let event := Event.set_time event (AppClock.int t) in
    Some (SUCCESS,
          {| APP_CLOCK := APP_CLOCK st;
             EVENT_STORE :=
               EventStore.putUserGeneratedEvents (EVENT_STORE st) [event] |}).

End App.

(** ** SSEPublisher.py: the interval of the publishing job *)

Module SSEPublisher.

Inductive TimeType := REAL_TIME | APP_TIME.

(** The fields the scheduling uses; [jobSeconds] is the interval, in real
    seconds, of the job this publisher has in the scheduler, if it has
    one. *)
Record SSEPublisher := {
  jobIntervalSeconds : Q;
  jobIntervalTimeType : TimeType;
  jobSeconds : option Q;
}.

(** Replaces the job of the publisher by one with the interval computed
    from the clock; [None] is the [ZeroDivisionError] of a speedup factor
    of zero. *)
Definition createJob (p : SSEPublisher) (clock : AppClock.AppClock)
  : option SSEPublisher :=
  seconds ← (match jobIntervalTimeType p with
             | APP_TIME =>
                 if Qeq_bool (AppClock.getSpeedupFactor clock) 0 then None
                 else Some (jobIntervalSeconds p
                            / AppClock.getSpeedupFactor clock)%Q
             | REAL_TIME => Some (jobIntervalSeconds p)
             end);
  Some {| jobIntervalSeconds := jobIntervalSeconds p;
          jobIntervalTimeType := jobIntervalTimeType p;
          jobSeconds := Some seconds |}.

Definition setJobInterval (p : SSEPublisher) (clock : AppClock.AppClock)
    (jobIntervalSeconds : Q) : option SSEPublisher :=
  createJob {| jobIntervalSeconds := jobIntervalSeconds;
               jobIntervalTimeType := jobIntervalTimeType p;
               jobSeconds := jobSeconds p |} clock.

Definition refreshJobInterval (p : SSEPublisher) (clock : AppClock.AppClock)
  : option SSEPublisher :=
  match jobIntervalTimeType p with
  | APP_TIME => setJobInterval p clock (jobIntervalSeconds p)
  | REAL_TIME => Some p
  end.

End SSEPublisher.

(** ** EventPublisher.py *)

Module EventPublisher.

Record EventPublisher := {
  lastPublishTime : Z;
}.

(** [None] is the [AttributeError] of a store without [minTime]. *)
Definition prepare (eventStore : EventStore.EventStore)
  : option EventPublisher :=
  lo ← EventStore.minTime eventStore;
  Some {| lastPublishTime := lo |}.

(** The constructor raises [ValueError] on an empty store, then
    prepares. *)
Definition init (eventStore : EventStore.EventStore)
  : option EventPublisher :=
  if EventStore.isEmpty eventStore then None else prepare eventStore.

(** The published events, in order, and the publisher afterwards. *)
Definition job (p : EventPublisher) (eventStore : EventStore.EventStore)
    (clock : AppClock.AppClock) (now : Q)
  : option (list Event.Event * EventPublisher) :=
  let start := lastPublishTime p in
  t ← AppClock.time clock now;
  let end_ := AppClock.int t in
  events ← EventStore.yieldPreGeneratedEvents eventStore
              (Some start) (Some end_) None;
  Some (events, {| lastPublishTime := end_ |}).

End EventPublisher.

(** ** AnalysisPublisher.py *)

Module AnalysisObject.

Record WaterUsage := {
  gallons : Q;
  water_dollars : Q;
}.

Record ElectricityUsage := {
  watts : Q;
  electricity_dollars : Q;
}.

Record UtilityUsage := {
  water : WaterUsage;
  electricity : ElectricityUsage;
  totalDollars : Q;
}.

Record AnalysisObject := {
  time : Q;
  indoorTemp : Q;
  utilityUsage : UtilityUsage;
}.

End AnalysisObject.

Module AnalysisPublisher.

(** The temperatures of the events are integers; the indoor temperature
    starts as one and is a float from the first calculation on. *)
Record AnalysisPublisher := {
  lastPublishTime : Z;
  lastCalculationTime : Z;
  indoorTemp : Q;
  outdoorTemp : Z;
  thermostatTemp : Z;
  booleanStateTrackerMap : BooleanStateTrackerMap.TrackerMap;
}.

(** [None] when the store has no [minTime] or no first event for one of
    the two temperature keys. *)
Definition prepare (eventStore : EventStore.EventStore)
  : option AnalysisPublisher :=
  lo ← EventStore.minTime eventStore;
  outdoorTemp ← EventStore.getFirstEventValue eventStore "outdoorTemp";
  thermostatTemp ← EventStore.getFirstEventValue eventStore "thermostatTemp";
  Some {| lastPublishTime := lo;
          lastCalculationTime := lo;
          outdoorTemp := Event.int_value outdoorTemp;
          thermostatTemp := Event.int_value thermostatTemp;
          indoorTemp := inject_Z (Event.int_value thermostatTemp);
          booleanStateTrackerMap := BooleanStateTrackerMap.init |}.

(** The constructor raises [ValueError] on an empty store, then
    prepares. *)
Definition init (eventStore : EventStore.EventStore)
  : option AnalysisPublisher :=
  if EventStore.isEmpty eventStore then None else prepare eventStore.

(** The HVAC electricity and the publisher afterwards; [None] is the
    [ValueError] of an event for another key. *)
Definition updateIndoorTempAndReturnHvacElectricityUsage
    (p : AnalysisPublisher) (event : Event.Event)
  : option (Q * AnalysisPublisher) :=
  temps ←
    (if bool_decide (Event.state_key event = "outdoorTemp"%string) then
       Some (Event.int_value (Event.new_value event), thermostatTemp p)
     else if bool_decide (Event.state_key event = "thermostatTemp"%string) then
       Some (outdoorTemp p, Event.int_value (Event.new_value event))
     else None);
  let '(indoorTemp, hvacElectricityUsage) :=
    Formulas.indoorTempAndHvacElectricityUsage
      (indoorTemp p)
      (inject_Z temps.1)
      (inject_Z temps.2)
      (inject_Z (Event.time event - lastCalculationTime p))
      (inject_Z (BooleanStateTrackerMap.getTotalOpenDoorTime
                   (booleanStateTrackerMap p)))
      (inject_Z (BooleanStateTrackerMap.getTotalOpenWindowTime
                   (booleanStateTrackerMap p))) in
  Some (hvacElectricityUsage,
        {| lastPublishTime := lastPublishTime p;
           lastCalculationTime := Event.time event;
           indoorTemp := indoorTemp;
           outdoorTemp := temps.1;
           thermostatTemp := temps.2;
           booleanStateTrackerMap :=
             BooleanStateTrackerMap.resetOpenWindowTime
               (BooleanStateTrackerMap.resetOpenDoorTime
                  (booleanStateTrackerMap p)) |}).

Definition set_map (p : AnalysisPublisher)
    (m : BooleanStateTrackerMap.TrackerMap) : AnalysisPublisher :=
  {| lastPublishTime := lastPublishTime p;
     lastCalculationTime := lastCalculationTime p;
     indoorTemp := indoorTemp p;
     outdoorTemp := outdoorTemp p;
     thermostatTemp := thermostatTemp p;
     booleanStateTrackerMap := m |}.

Definition set_lastPublishTime (p : AnalysisPublisher) (t : Z)
  : AnalysisPublisher :=
  {| lastPublishTime := t;
     lastCalculationTime := lastCalculationTime p;
     indoorTemp := indoorTemp p;
     outdoorTemp := outdoorTemp p;
     thermostatTemp := thermostatTemp p;
     booleanStateTrackerMap := booleanStateTrackerMap p |}.

(** The loop of [job] over the events of the window. *)
Fixpoint process (electricityUsage : Q) (p : AnalysisPublisher)
    (events : list Event.Event) : option (Q * AnalysisPublisher) :=
  match events with
  | [] => Some (electricityUsage, p)
  | event :: events =>
      if Event.isBooleanEvent event then
        m ← BooleanStateTrackerMap.processEvent
               (booleanStateTrackerMap p) event;
        process electricityUsage (set_map p m) events
      else
        r ← updateIndoorTempAndReturnHvacElectricityUsage p event;
        process (electricityUsage + r.1)%Q r.2 events
  end.

(** The published object and the publisher afterwards.  The wall clock is
    read at [now1] for the end of the window and at [now2] for the time of
    the object. *)
Definition job (p : AnalysisPublisher) (eventStore : EventStore.EventStore)
    (clock : AppClock.AppClock) (now1 now2 : Q)
  : option (AnalysisObject.AnalysisObject * AnalysisPublisher) :=
  let electricityUsage := 0%Q in
  let p := set_map p (BooleanStateTrackerMap.resetTotalTimeTrue
                        (booleanStateTrackerMap p) None) in
  let start := lastPublishTime p in
  t ← AppClock.time clock now1;
  let end_ := AppClock.int t in
  let p := set_lastPublishTime p end_ in
  events ← EventStore.yieldEvents eventStore (Some start) (Some end_)
              None None;
  r ← process electricityUsage p events;
  let p := r.2 in
  let electricityUsage :=
    (r.1 + BooleanStateTrackerMap.getTotalElectricityUsage
             (booleanStateTrackerMap p))%Q in
  let electricityCost :=
    Formulas.electricityCost electricityUsage (inject_Z (end_ - start)) in
  let waterUsage :=
    BooleanStateTrackerMap.getTotalWaterUsage (booleanStateTrackerMap p) in
  let waterCost := Formulas.waterCost waterUsage in
  days ← AppClock.getAbsoluteSimulationTimeDays clock now2;
  Some ({| AnalysisObject.time := days;
           AnalysisObject.indoorTemp := indoorTemp p;
           AnalysisObject.utilityUsage :=
             {| AnalysisObject.electricity :=
                  {| AnalysisObject.watts := electricityUsage;
                     AnalysisObject.electricity_dollars := electricityCost |};
                AnalysisObject.water :=
                  {| AnalysisObject.gallons := waterUsage;
                     AnalysisObject.water_dollars := waterCost |};
                AnalysisObject.totalDollars :=
                  (electricityCost + waterCost)%Q |} |},
        p).

End AnalysisPublisher.

(** ** app.py: the route of the clock speed *)

Module SpeedRoute.

(** The value of ["speed"] in the body of the request: a number, a
    boolean (which Python counts as the number 1 or 0), or anything
    else. *)
Inductive Speed :=
| Number (q : Q)
| Boolean (b : bool)
| Other.

Definition number (v : Speed) : option Q :=
  match v with
  | Number q => Some q
  | Boolean b => Some (if b then 1 else 0)%Q
  | Other => None
  end.

(** The module-level objects the route uses; of the two publishers on an
    interval of app time, the part that the scheduling uses. *)
Record State := {
  APP_CLOCK : AppClock.AppClock;
  EVENT_PUBLISHER : SSEPublisher.SSEPublisher;
  ANALYSIS_PUBLISHER : SSEPublisher.SSEPublisher;
}.

(** [POST /speed]; [now1] and [now2] are the two readings of the wall clock
    in [setSpeedupFactor]. *)
Definition appClockSpeedupFactor (st : State) (now1 now2 : Q)
    (speed : Speed) : option (App.Response * State) :=
  match number speed with
  | None => Some (("The value of `speed` should be a number"%string, 400), st)
  | Some speedupFactor =>
      if Qlt_le_dec speedupFactor (inject_Z Constants.MIN_SPEEDUP_FACTOR) then
        Some (("The value of `speed` should not be less than 1"%string, 400),
              st)
      else if Qlt_le_dec (inject_Z Constants.MAX_SPEEDUP_FACTOR)
                speedupFactor then
        Some (("The value of `speed` should not be greater than 3600"%string,
               400), st)
      else
        clock ← AppClock.setSpeedupFactor (APP_CLOCK st) now1 now2
                   speedupFactor;
        eventPublisher ←
          SSEPublisher.refreshJobInterval (EVENT_PUBLISHER st) clock;
        analysisPublisher ←
          SSEPublisher.refreshJobInterval (ANALYSIS_PUBLISHER st) clock;
        Some (App.SUCCESS,
              {| APP_CLOCK := clock;
                 EVENT_PUBLISHER := eventPublisher;
                 ANALYSIS_PUBLISHER := analysisPublisher |})
  end.

End SpeedRoute.

(** ** Sample data *)

Module Samples.
Import EventStore.

Definition doorEvent (t : Z) (v : bool) (msg : string) : Event.Event :=
  {| Event.time := t; Event.state_type := "door";
     Event.state_key := "frontDoor"; Event.new_value := Event.VBool v;
     Event.message := msg |}.

Definition thermostatEvent (t v : Z) : Event.Event :=
  {| Event.time := t; Event.state_type := "temp";
     Event.state_key := "thermostatTemp"; Event.new_value := Event.VInt v;
     Event.message := "changed" |}.

Definition closed5 : Event.Event := doorEvent 5 false "closed".
Definition opened5 : Event.Event := doorEvent 5 true "opened by the user".

(** A pre-generated event overridden by a user-generated one. *)
Definition overridden : EventStore :=
  putEvents UserGenerated (putEvents PreGenerated fresh [closed5]) [opened5].

(** A user-generated event beyond the pre-generated history. *)
Definition extended : EventStore :=
  putEvents UserGenerated
    (putEvents PreGenerated fresh [doorEvent 0 false "initial value"])
    [doorEvent 100 true "opened by the user"].

(** Two instances, created one after the other. *)
Definition storeA : nat := (new initial).1.
Definition storeB : nat := (new (new initial).2).1.
Definition two_stores : Heap := (new (new initial).2).2.

(** The entry that the event "front door opened at 10" creates. *)
Definition trackedDoor : BooleanStateTracker.BooleanStateTracker :=
  {| BooleanStateTracker.type := "door";
     BooleanStateTracker.key := "frontDoor";
     BooleanStateTracker.value := true;
     BooleanStateTracker.lastTimeTrue := 10;
     BooleanStateTracker.totalTimeTrue := 0;
     BooleanStateTracker.electricityUsageRate := 0;
     BooleanStateTracker.waterUsageRate :=
       {| UsageRate.gallonsPerSecond := 0; UsageRate.percentHot := 0 |} |}.

(** A store whose only event is user-generated. *)
Definition userOnly : EventStore :=
  putEvents UserGenerated fresh [opened5].

(** The first temperatures, then the front door open from 10 to 40. *)
Definition history : EventStore :=
  putEvents PreGenerated fresh
    [{| Event.time := 0; Event.state_type := "temp";
        Event.state_key := "outdoorTemp"; Event.new_value := Event.VInt 80;
        Event.message := "initial value" |};
     thermostatEvent 0 70;
     doorEvent 10 true "opened";
     doorEvent 40 false "closed"].

(** A clock started at wall-clock time 1000, running 60 times faster. *)
Definition clock : AppClock.AppClock :=
  AppClock.start (AppClock.init 0 5184000 60) 1000.

(** The front door closed again, open since 10, with the given total. *)
Definition closedDoor (total : Z) : BooleanStateTracker.BooleanStateTracker :=
  {| BooleanStateTracker.type := "door";
     BooleanStateTracker.key := "frontDoor";
     BooleanStateTracker.value := false;
     BooleanStateTracker.lastTimeTrue := 10;
     BooleanStateTracker.totalTimeTrue := total;
     BooleanStateTracker.electricityUsageRate := 0;
     BooleanStateTracker.waterUsageRate :=
       {| UsageRate.gallonsPerSecond := 0; UsageRate.percentHot := 0 |} |}.

Definition closedDoors (total : Z) : BooleanStateTrackerMap.TrackerMap :=
  {[ "door" := {[ "frontDoor" := closedDoor total ]} ]}.

(** A clock that was never started. *)
Definition unstarted : AppClock.AppClock := AppClock.init 0 5184000 60.
End Samples.

(** * Properties *)

(** ** Lists *)

Section list_facts.
Context {A B : Type} (P : B → Prop) `{!∀ x, Decision (P x)}.

Lemma filter_none (l : list B) :
  (∀ x, x ∈ l → ¬ P x) → filter P l = [].
Proof.
  induction l as [|x l IH]; intros Hl; [done|].
  rewrite filter_cons_False.
  - apply IH. intros y Hy. apply Hl. by right.
  - apply Hl. by left.
Qed.

(** Only the element [x0] of a duplicate-free list contributes to the
    filtered concatenation, when no other element yields a match. *)
Lemma filter_bind_unique (f : A → list B) (l : list A) (x0 : A)
    `{!EqDecision A} :
  NoDup l →
  (∀ x, x ∈ l → x ≠ x0 → filter P (f x) = []) →
  filter P (l ≫= f) = if decide (x0 ∈ l) then filter P (f x0) else [].
Proof.
  induction 1 as [|x l Hx Hnd IH]; intros Hother.
  - by rewrite decide_False by (by intros ?%elem_of_nil).
  - rewrite bind_cons, filter_app, IH
      by (intros y Hy; apply Hother; by right).
    destruct (decide (x = x0)) as [->|Hne].
    + rewrite (decide_False (P := x0 ∈ l)) by done.
      rewrite decide_True by (by left). by rewrite app_nil_r.
    + rewrite (Hother x) by (done || by left). simpl.
      destruct (decide (x0 ∈ l)) as [Hin|Hin].
      * rewrite decide_True by (by right). done.
      * rewrite decide_False; [done|].
        intros [?|?]%elem_of_cons; congruence.
Qed.
End list_facts.

(** ** EventStore *)

Section EventStore_facts.
Import EventStore.

Implicit Types (s : EventStore) (m : EventMap) (d : gmap string Container)
  (c : Container) (e : Event.Event) (ty : EventType) (t : Z) (k : string).

Lemma container_get_set c ty e ty' :
  container_get (container_set c ty e) ty' =
  if decide (ty' = ty) then Some e else container_get c ty'.
Proof. by destruct ty, ty'. Qed.

Lemma container_get_pop_user c ty :
  container_get (container_pop_user c) ty =
  match ty with
  | UserGenerated => None
  | PreGenerated => container_get c PreGenerated
  end.
Proof. by destruct ty. Qed.

(** The dictionary after one insert, without the intermediate steps. *)
Lemma map_putEvent ty s e :
  map (putEvent ty s e) =
  let d := default ∅ (map s !! Event.time e) in
  let c := default empty_container (d !! Event.state_key e) in
  <[Event.time e := <[Event.state_key e := container_set c ty e]> d]> (map s).
Proof.
  unfold putEvent; simpl.
  destruct (map s !! Event.time e) as [d|] eqn:Hd; simpl.
  - rewrite Hd; simpl.
    destruct (d !! Event.state_key e) as [c|] eqn:Hc; simpl.
    + by rewrite Hc.
    + by rewrite lookup_insert_eq, insert_insert_eq.
  - rewrite lookup_insert_eq; simpl. rewrite lookup_empty; simpl.
    by rewrite lookup_insert_eq, !insert_insert_eq.
Qed.

(** A lookup after one insert. *)
Lemma safeGetEvent_putEvent ty s e t k ty' :
  safeGetEvent (putEvent ty s e) t k ty' =
  if decide (t = Event.time e ∧ k = Event.state_key e ∧ ty' = ty)
  then Some e else safeGetEvent s t k ty'.
Proof.
  unfold safeGetEvent. rewrite map_putEvent. cbv zeta.
  destruct (decide (t = Event.time e)) as [->|Ht].
  - rewrite lookup_insert_eq; simpl.
    destruct (decide (k = Event.state_key e)) as [->|Hk].
    + rewrite lookup_insert_eq; simpl. rewrite container_get_set.
      destruct (decide (ty' = ty)) as [->|Hty].
      * by rewrite decide_True.
      * by rewrite decide_False by tauto.
    + rewrite lookup_insert_ne by done.
      by rewrite decide_False by tauto.
  - rewrite lookup_insert_ne by done.
    by rewrite decide_False by tauto.
Qed.

Lemma minTime_putEvent ty s e :
  minTime (putEvent ty s e) =
  Some (match minTime s with
        | Some lo => Z.min (Event.time e) lo
        | None => Event.time e
        end).
Proof.
  unfold putEvent; simpl. destruct (minTime s); [|done].
  case_decide; f_equal; lia.
Qed.

Lemma maxTime_putEvent ty s e :
  maxTime (putEvent ty s e) =
  Some (match maxTime s with
        | Some hi => Z.max (Event.time e) hi
        | None => Event.time e
        end).
Proof.
  unfold putEvent; simpl. destruct (maxTime s); [|done].
  case_decide; f_equal; lia.
Qed.

Lemma dom_putEvent ty s e t :
  is_Some (map (putEvent ty s e) !! t) ↔
  t = Event.time e ∨ is_Some (map s !! t).
Proof.
  rewrite map_putEvent. cbv zeta.
  destruct (decide (t = Event.time e)) as [->|Ht].
  - rewrite lookup_insert_eq. split; [by left | by eauto].
  - rewrite lookup_insert_ne by done. tauto.
Qed.

(** *** Clearing *)

Lemma foldl_alter_lookup (f : Container → Container) (ks : list string) d k :
  NoDup ks →
  foldl (λ d k, alter f k d) d ks !! k =
  if decide (k ∈ ks) then f <$> d !! k else d !! k.
Proof.
  intros Hnd. revert d.
  induction Hnd as [|x ks Hx Hnd IH]; intros d; cbn [foldl].
  - by rewrite decide_False by (by intros ?%elem_of_nil).
  - rewrite IH. destruct (decide (k = x)) as [->|Hne].
    + rewrite (decide_False (P := x ∈ ks)) by done.
      rewrite decide_True by (by left). apply lookup_alter_eq.
    + rewrite lookup_alter_ne by done.
      destruct (decide (k ∈ ks)).
      * by rewrite decide_True by (by right).
      * rewrite decide_False; [done|].
        intros [?|?]%elem_of_cons; congruence.
Qed.

Lemma clear_keys_lookup d k :
  clear_keys d !! k = container_pop_user <$> d !! k.
Proof.
  unfold clear_keys.
  rewrite foldl_alter_lookup by apply NoDup_fst_map_to_list.
  case_decide as Hin; [done|].
  destruct (d !! k) as [c|] eqn:Hc; [|done].
  exfalso. apply Hin, list_elem_of_fmap. exists (k, c).
  split; [done|]. by apply elem_of_map_to_list.
Qed.

Lemma clear_time_lookup m t t' :
  clear_time m t !! t' =
  if decide (t' = t) then clear_keys <$> m !! t' else m !! t'.
Proof.
  unfold clear_time. case_decide as Ht; [subst t'|].
  - destruct (m !! t) eqn:Hm; [|by rewrite Hm].
    by rewrite lookup_insert_eq.
  - destruct (m !! t); [|done]. by rewrite lookup_insert_ne.
Qed.

Lemma foldl_clear_time_lookup (ts : list Z) m t :
  NoDup ts →
  foldl clear_time m ts !! t =
  if decide (t ∈ ts) then clear_keys <$> m !! t else m !! t.
Proof.
  intros Hnd. revert m.
  induction Hnd as [|x ts Hx Hnd IH]; intros m; cbn [foldl].
  - by rewrite decide_False by (by intros ?%elem_of_nil).
  - rewrite IH, clear_time_lookup. destruct (decide (t = x)) as [->|Hne].
    + rewrite (decide_False (P := x ∈ ts)) by done.
      by rewrite decide_True by (by left).
    + destruct (decide (t ∈ ts)).
      * by rewrite decide_True by (by right).
      * rewrite decide_False; [done|].
        intros [?|?]%elem_of_cons; congruence.
Qed.

(** Clearing succeeds as soon as the bounds exist, and keeps them. *)
Lemma clear_bounds s s' :
  clearUserGeneratedEvents s = Some s' →
  minTime s' = minTime s ∧ maxTime s' = maxTime s.
Proof.
  unfold clearUserGeneratedEvents.
  destruct (minTime s) as [lo|], (maxTime s) as [hi|]; simpl; try done.
  by intros [= <-].
Qed.

Lemma clear_total s lo hi :
  minTime s = Some lo → maxTime s = Some hi →
  is_Some (clearUserGeneratedEvents s).
Proof.
  intros Hlo Hhi. unfold clearUserGeneratedEvents.
  rewrite Hlo, Hhi; simpl. by eexists.
Qed.

Lemma map_clear s s' t :
  dom_covered s → clearUserGeneratedEvents s = Some s' →
  map s' !! t = clear_keys <$> map s !! t.
Proof.
  intros Hdom. unfold clearUserGeneratedEvents.
  destruct (minTime s) as [lo|] eqn:Hlo; [|done].
  destruct (maxTime s) as [hi|] eqn:Hhi; [|done]. simpl.
  intros [= <-]; simpl.
  rewrite foldl_clear_time_lookup by apply NoDup_seqZ.
  case_decide as Hin; [done|].
  destruct (map s !! t) as [d|] eqn:Hd; [|done].
  exfalso. apply Hin, elem_of_seqZ.
  destruct (Hdom t) as (lo' & hi' & ? & ? & ?); [by rewrite Hd|].
  simplify_eq. lia.
Qed.

(** A lookup after clearing: the user layer is gone, the other is kept. *)
Lemma safeGetEvent_clear s s' t k ty :
  dom_covered s → clearUserGeneratedEvents s = Some s' →
  safeGetEvent s' t k ty =
  match ty with
  | UserGenerated => None
  | PreGenerated => safeGetEvent s t k PreGenerated
  end.
Proof.
  intros Hdom Hclear. unfold safeGetEvent.
  rewrite (map_clear s s') by done.
  destruct (map s !! t) as [d|]; simpl; [|by destruct ty].
  rewrite clear_keys_lookup.
  destruct (d !! k) as [c|]; simpl; [|by destruct ty].
  apply container_get_pop_user.
Qed.

(** *** The invariant *)

Lemma store_inv_fresh : store_inv fresh.
Proof.
  split.
  - intros t [d Hd]. simpl in Hd. by rewrite lookup_empty in Hd.
  - intros t k ty e. unfold safeGetEvent; simpl.
    rewrite lookup_empty; simpl. rewrite lookup_empty; simpl.
    by destruct ty.
Qed.

Lemma store_inv_putEvent ty s e :
  store_inv s → store_inv (putEvent ty s e).
Proof.
  intros [Hdom Hslots]. split.
  - intros t Ht. rewrite minTime_putEvent, maxTime_putEvent.
    do 2 eexists. split; [done|]. split; [done|].
    apply dom_putEvent in Ht as [->|Ht].
    + destruct (minTime s), (maxTime s); lia.
    + destruct (Hdom t Ht) as (lo & hi & -> & -> & ?). lia.
  - intros t k ty' e'. rewrite safeGetEvent_putEvent.
    case_decide as Heq; [|by apply Hslots].
    intros [= <-]. by destruct Heq as (-> & -> & _).
Qed.

Lemma store_inv_putEvents ty s events :
  store_inv s → store_inv (putEvents ty s events).
Proof.
  unfold putEvents. revert s.
  induction events as [|e events IH]; intros s Hs; simpl; [done|].
  by apply IH, store_inv_putEvent.
Qed.

Lemma store_inv_clear s s' :
  store_inv s → clearUserGeneratedEvents s = Some s' → store_inv s'.
Proof.
  intros [Hdom Hslots] Hclear. split.
  - intros t Ht. rewrite (map_clear s s') in Ht by done.
    apply fmap_is_Some in Ht.
    destruct (clear_bounds _ _ Hclear) as [-> ->]. by apply Hdom.
  - intros t k ty e. rewrite (safeGetEvent_clear s s') by done.
    destruct ty; [apply Hslots | done].
Qed.

Lemma store_inv_step s o s' :
  store_inv s → step s o = Some s' → store_inv s'.
Proof.
  destruct o as [ty events|]; simpl.
  - intros Hs [= <-]. by apply store_inv_putEvents.
  - apply store_inv_clear.
Qed.

Lemma store_inv_run ops s s' :
  store_inv s → run ops s = Some s' → store_inv s'.
Proof.
  revert s. induction ops as [|o ops IH]; intros s Hs; simpl.
  - by intros [= <-].
  - destruct (step s o) as [s1|] eqn:Hstep; [|done]. simpl.
    apply IH. by eapply store_inv_step.
Qed.

(** *** Range queries *)

Lemma safeGetEvent_lookup s t d k c ty :
  map s !! t = Some d → d !! k = Some c →
  safeGetEvent s t k ty = container_get c ty.
Proof. intros Hd Hc. unfold safeGetEvent. by rewrite Hd; simpl; rewrite Hc. Qed.

Lemma getEventFromContainer_Some eventType c e :
  getEventFromContainer eventType c = Some e →
  ∃ ty, container_get c ty = Some e.
Proof.
  destruct eventType as [ty|]; unfold getEventFromContainer; [by exists ty|].
  destruct (container_get c UserGenerated) eqn:Hu.
  - intros [= <-]. by exists UserGenerated.
  - by exists PreGenerated.
Qed.

(** What one container contributes to the events of slot [(t0, k0)]. *)
Lemma filter_slot_container s t d k c eventType t0 k0 :
  slots_ok s → map s !! t = Some d → d !! k = Some c →
  filter (at_slot t0 k0) (option_list (getEventFromContainer eventType c)) =
  if decide (t = t0 ∧ k = k0)
  then option_list (getEventFromContainer eventType c) else [].
Proof.
  intros Hslots Hd Hc.
  destruct (getEventFromContainer eventType c) as [e|] eqn:He; simpl;
    [|by case_decide].
  apply getEventFromContainer_Some in He as [ty He].
  rewrite <-(safeGetEvent_lookup s t d k c ty) in He by done.
  apply Hslots in He as [Ht Hk].
  case_decide as Heq.
  - destruct Heq as [<- <-]. by rewrite filter_cons_True.
  - rewrite filter_cons_False; [done|]. intros [? ?]. apply Heq. by subst.
Qed.

Lemma filter_yield_time_other s stateKeys eventType t' t k :
  slots_ok s → t' ≠ t →
  filter (at_slot t k) (yield_time (map s) stateKeys eventType t') = [].
Proof.
  intros Hslots Hne. apply filter_none. intros e He Hslot.
  unfold yield_time in He.
  destruct (map s !! t') as [d|] eqn:Hd; [|by apply elem_of_nil in He].
  assert (∃ k' c', d !! k' = Some c' ∧
            e ∈ option_list (getEventFromContainer eventType c'))
    as (k' & c' & Hc' & Hin).
  { destruct stateKeys as [ks|]; [case_decide|].
    - apply list_elem_of_bind in He as ([k' c'] & He & Hin).
      apply elem_of_map_to_list in Hin. by exists k', c'.
    - apply list_elem_of_bind in He as (k' & He & _).
      destruct (d !! k') as [c'|] eqn:Hc'; [|by apply elem_of_nil in He].
      by exists k', c'.
    - apply list_elem_of_bind in He as ([k' c'] & He & Hin).
      apply elem_of_map_to_list in Hin. by exists k', c'. }
  assert (e ∈ filter (at_slot t k)
                (option_list (getEventFromContainer eventType c'))) as Hf
    by (by apply list_elem_of_filter).
  rewrite (filter_slot_container s t' d k' c') in Hf by done.
  rewrite decide_False in Hf by tauto. by apply elem_of_nil in Hf.
Qed.

Lemma filter_yield_time s stateKeys eventType t k :
  slots_ok s → key_selected stateKeys k →
  filter (at_slot t k) (yield_time (map s) stateKeys eventType t) =
  option_list (getEventFromContainer eventType
    (default empty_container (default ∅ (map s !! t) !! k))).
Proof.
  intros Hslots Hsel. unfold yield_time.
  destruct (map s !! t) as [d|] eqn:Hd; simpl; cycle 1.
  { rewrite lookup_empty; simpl. by destruct eventType as [[]|]. }
  assert (Hkey : ∀ k' c', d !! k' = Some c' → k' ≠ k →
    filter (at_slot t k)
      (option_list (getEventFromContainer eventType c')) = []).
  { intros k' c' Hc' Hne.
    rewrite (filter_slot_container s t d k' c') by done.
    by rewrite decide_False by tauto. }
  assert (Hall :
    filter (at_slot t k)
      (kc ← map_to_list d;
       option_list (getEventFromContainer eventType kc.2)) =
    option_list (getEventFromContainer eventType
      (default empty_container (d !! k)))).
  { destruct (d !! k) as [c|] eqn:Hc; simpl.
    - rewrite (filter_bind_unique _ _ _ (k, c)).
      + rewrite decide_True by (by apply elem_of_map_to_list). simpl.
        rewrite (filter_slot_container s t d k c) by done.
        by rewrite decide_True.
      + apply NoDup_map_to_list.
      + intros [k' c'] Hin Hne. apply elem_of_map_to_list in Hin. simpl.
        apply (Hkey k' c' Hin). intros ->. congruence.
    - transitivity (@nil Event.Event); [|by destruct eventType as [[]|]].
      apply filter_none.
      intros e ([k' c'] & He & Hin)%list_elem_of_bind Hslot.
      apply elem_of_map_to_list in Hin. simpl in He.
      assert (e ∈ filter (at_slot t k)
                    (option_list (getEventFromContainer eventType c'))) as Hf
        by (by apply list_elem_of_filter).
      rewrite (Hkey k' c') in Hf; [by apply elem_of_nil in Hf|done|].
      intros ->. congruence. }
  destruct stateKeys as [ks|]; [|done].
  case_decide as Hks; [done|].
  destruct Hsel as [?|Hin]; [done|].
  rewrite (filter_bind_unique _ _ _ k).
  - rewrite decide_True by (by apply elem_of_elements).
    destruct (d !! k) as [c|] eqn:Hc; simpl.
    + rewrite (filter_slot_container s t d k c) by done.
      by rewrite decide_True.
    + by destruct eventType as [[]|].
  - apply NoDup_elements.
  - intros k' _ Hne. destruct (d !! k') as [c'|] eqn:Hc'; [|done].
    by apply (Hkey k' c').
Qed.

(** The events of slot [(t, k)] that a range query without provenance
    yields: the user-generated one if there is one, else the
    pre-generated one if there is one. *)
Lemma filter_yieldEvents s startTime endTime stateKeys t k :
  store_inv s →
  in_timeframe s startTime endTime t → key_selected stateKeys k →
  ∃ evs, yieldEvents s startTime endTime stateKeys None = Some evs ∧
    filter (at_slot t k) evs =
    option_list (match safeGetUserGeneratedEvent s t k with
                 | Some u => Some u
                 | None => safeGetPreGeneratedEvent s t k
                 end).
Proof.
  intros [Hdom Hslots] [Hlo Hhi] Hsel. unfold yieldEvents, isEmpty.
  case_bool_decide as Hempty.
  { eexists; split; [done|].
    unfold safeGetUserGeneratedEvent, safeGetPreGeneratedEvent, safeGetEvent.
    rewrite Hempty, lookup_empty; simpl. by rewrite lookup_empty. }
  assert (∃ a, (match startTime with Some t => Some t | None => minTime s end)
               = Some a ∧ a ≤ t) as (a & -> & Ha).
  { destruct startTime as [a|]; [by exists a|].
    destruct Hlo as (lo & -> & ?). by exists lo. }
  assert (∃ b, (match endTime with
                | Some t => Some t
                | None => (λ hi, hi + 1) <$> maxTime s
                end) = Some b ∧ t < b) as (b & -> & Hb).
  { destruct endTime as [b|]; [by exists b|].
    destruct Hhi as (hi & -> & ?). exists (hi + 1). split; [done|lia]. }
  simpl. eexists; split; [done|].
  rewrite (filter_bind_unique _ _ _ t).
  - rewrite decide_True by (apply elem_of_seqZ; lia).
    by rewrite filter_yield_time.
  - apply NoDup_seqZ.
  - intros t' _ Hne. by apply filter_yield_time_other.
Qed.

(** *** Bounds *)

Lemma stored_at_dom s t : stored_at s t → is_Some (map s !! t).
Proof.
  intros (k & ty & e & He). unfold safeGetEvent in He.
  destruct (map s !! t); [done|]. simpl in He.
  rewrite lookup_empty in He. by destruct ty.
Qed.

Lemma dom_covered_bounds_cover s : dom_covered s → bounds_cover s.
Proof. intros Hdom t Ht. by apply Hdom, stored_at_dom. Qed.

Lemma stored_at_putEvent_new ty s e : stored_at (putEvent ty s e) (Event.time e).
Proof.
  exists (Event.state_key e), ty, e.
  rewrite safeGetEvent_putEvent. by rewrite decide_True.
Qed.

Lemma stored_at_putEvent_old ty s e t :
  stored_at s t → stored_at (putEvent ty s e) t.
Proof.
  intros (k & ty' & e' & He'). exists k, ty'.
  rewrite safeGetEvent_putEvent. case_decide; eauto.
Qed.

Lemma bounds_attained_putEvent ty s e :
  bounds_attained s → bounds_attained (putEvent ty s e).
Proof.
  intros [Hmin Hmax]. split.
  - intros lo. rewrite minTime_putEvent. intros [= <-].
    destruct (minTime s) as [lo|]; [|apply stored_at_putEvent_new].
    destruct (Z.min_spec (Event.time e) lo) as [[_ ->]|[_ ->]].
    + apply stored_at_putEvent_new.
    + by apply stored_at_putEvent_old, Hmin.
  - intros hi. rewrite maxTime_putEvent. intros [= <-].
    destruct (maxTime s) as [hi|]; [|apply stored_at_putEvent_new].
    destruct (Z.max_spec (Event.time e) hi) as [[_ ->]|[_ ->]].
    + by apply stored_at_putEvent_old, Hmax.
    + apply stored_at_putEvent_new.
Qed.

Lemma bounds_attained_putEvents ty s events :
  bounds_attained s → bounds_attained (putEvents ty s events).
Proof.
  unfold putEvents. revert s.
  induction events as [|e events IH]; intros s Hs; simpl; [done|].
  by apply IH, bounds_attained_putEvent.
Qed.

Lemma bounds_attained_run ops s s' :
  forallb is_put ops = true →
  bounds_attained s → run ops s = Some s' → bounds_attained s'.
Proof.
  revert s. induction ops as [|o ops IH]; intros s Hput Hs; simpl.
  - by intros [= <-].
  - simpl in Hput. apply andb_prop in Hput as [Ho Hput].
    destruct o as [ty events|]; [|done]. simpl.
    apply IH; [done|]. by apply bounds_attained_putEvents.
Qed.

Lemma bounds_extend_refl s : bounds_extend s s.
Proof. split; intros x Hx; exists x; (split; [done|lia]). Qed.

Lemma bounds_extend_trans s1 s2 s3 :
  bounds_extend s1 s2 → bounds_extend s2 s3 → bounds_extend s1 s3.
Proof.
  intros [Hlo12 Hhi12] [Hlo23 Hhi23]. split.
  - intros lo (lo2 & Hlo2 & ?)%Hlo12.
    apply Hlo23 in Hlo2 as (lo3 & ? & ?). exists lo3. split; [done|lia].
  - intros hi (hi2 & Hhi2 & ?)%Hhi12.
    apply Hhi23 in Hhi2 as (hi3 & ? & ?). exists hi3. split; [done|lia].
Qed.

Lemma bounds_extend_putEvent ty s e : bounds_extend s (putEvent ty s e).
Proof.
  split.
  - intros lo Hlo. rewrite minTime_putEvent, Hlo.
    eexists; split; [done|lia].
  - intros hi Hhi. rewrite maxTime_putEvent, Hhi.
    eexists; split; [done|lia].
Qed.

Lemma bounds_extend_putEvents ty s events :
  bounds_extend s (putEvents ty s events).
Proof.
  unfold putEvents. revert s.
  induction events as [|e events IH]; intros s; simpl.
  - apply bounds_extend_refl.
  - eapply bounds_extend_trans; [apply bounds_extend_putEvent | apply IH].
Qed.

Lemma bounds_extend_step s o s' : step s o = Some s' → bounds_extend s s'.
Proof.
  destruct o as [ty events|]; simpl.
  - intros [= <-]. apply bounds_extend_putEvents.
  - intros [Hlo Hhi]%clear_bounds. unfold bounds_extend.
    rewrite Hlo, Hhi. apply (bounds_extend_refl s).
Qed.

Lemma bounds_extend_run ops s s' : run ops s = Some s' → bounds_extend s s'.
Proof.
  revert s. induction ops as [|o ops IH]; intros s; simpl.
  - intros [= <-]. apply bounds_extend_refl.
  - destruct (step s o) as [s1|] eqn:Hstep; [|done]. simpl. intros Hrun.
    eapply bounds_extend_trans; [by eapply bounds_extend_step | by apply IH].
Qed.

(** The bounds exist exactly when a time slot does. *)
Lemma map_putEvent_nonempty ty s e : map (putEvent ty s e) ≠ ∅.
Proof. rewrite map_putEvent. apply insert_non_empty. Qed.

Lemma bounds_iff_nonempty_putEvents ty s events :
  bounds_iff_nonempty s → bounds_iff_nonempty (putEvents ty s events).
Proof.
  unfold putEvents. revert s.
  induction events as [|e events IH]; intros s Hs; [done|].
  cbn [foldl]. apply IH. pose proof (map_putEvent_nonempty ty s e).
  split; (split; [done|]).
  - by rewrite minTime_putEvent.
  - by rewrite maxTime_putEvent.
Qed.

Lemma map_clear_empty s s' :
  dom_covered s → clearUserGeneratedEvents s = Some s' →
  map s' = ∅ ↔ map s = ∅.
Proof.
  intros Hdom Hclear. rewrite !map_empty. split; intros Hempty t.
  - specialize (Hempty t). rewrite (map_clear s s') in Hempty by done.
    by destruct (map s !! t).
  - by rewrite (map_clear s s'), Hempty.
Qed.

Lemma bounds_iff_nonempty_run ops s s' :
  store_inv s → bounds_iff_nonempty s → run ops s = Some s' →
  bounds_iff_nonempty s'.
Proof.
  revert s. induction ops as [|o ops IH]; intros s Hinv Hs; simpl.
  - by intros [= <-].
  - destruct (step s o) as [s1|] eqn:Hstep; [|done]. simpl.
    apply IH; [by eapply store_inv_step|].
    destruct o as [ty events|]; simpl in Hstep.
    + injection Hstep as <-. by apply bounds_iff_nonempty_putEvents.
    + destruct Hinv as [Hdom _]. unfold bounds_iff_nonempty.
      destruct (clear_bounds _ _ Hstep) as [-> ->].
      by rewrite (map_clear_empty s s1).
Qed.

Lemma reachable_bounds_iff_nonempty s :
  reachable s → bounds_iff_nonempty s.
Proof.
  intros [ops Hrun].
  eapply bounds_iff_nonempty_run; [apply store_inv_fresh| |done].
  by split.
Qed.

End EventStore_facts.

(** ** The event store: claims *)

Section EventStore_claims.
Import EventStore.

(** C3. On a store built by its own operations, for every slot
    [(time, stateKey)] of the queried timeframe that the key filter lets
    through, a range query without provenance yields the user-generated
    event when both events exist, the pre-generated event when only that
    one exists, and nothing for the slot when neither exists. *)
Theorem yieldEvents_prefers_user_generated
    ops s startTime endTime stateKeys t k :
  run ops fresh = Some s →
  in_timeframe s startTime endTime t →
  key_selected stateKeys k →
  ∃ evs, yieldEvents s startTime endTime stateKeys None = Some evs ∧
    (∀ u p, safeGetUserGeneratedEvent s t k = Some u →
            safeGetPreGeneratedEvent s t k = Some p →
            filter (at_slot t k) evs = [u]) ∧
    (∀ p, safeGetUserGeneratedEvent s t k = None →
          safeGetPreGeneratedEvent s t k = Some p →
          filter (at_slot t k) evs = [p]) ∧
    (safeGetUserGeneratedEvent s t k = None →
     safeGetPreGeneratedEvent s t k = None →
     filter (at_slot t k) evs = []).
Proof.
  intros Hrun Htime Hsel.
  assert (store_inv s) as Hinv
    by (eapply store_inv_run; [apply store_inv_fresh | done]).
  destruct (filter_yieldEvents s startTime endTime stateKeys t k)
    as (evs & Hevs & Hfilter); [done..|].
  exists evs. split; [done|]. rewrite Hfilter.
  split; [|split].
  - by intros u p -> _.
  - by intros p -> ->.
  - by intros -> ->.
Qed.

Lemma yieldEvents_prefers_user_generated_witness :
  run [Put PreGenerated [Samples.closed5];
       Put UserGenerated [Samples.opened5]] fresh = Some Samples.overridden ∧
  in_timeframe Samples.overridden (Some 0) (Some 10) 5 ∧
  key_selected None "frontDoor" ∧
  ∃ evs,
    yieldEvents Samples.overridden (Some 0) (Some 10) None None = Some evs ∧
    filter (at_slot 5 "frontDoor") evs = [Samples.opened5].
Proof.
  assert (run [Put PreGenerated [Samples.closed5];
               Put UserGenerated [Samples.opened5]] fresh
          = Some Samples.overridden) as Hrun by reflexivity.
  assert (in_timeframe Samples.overridden (Some 0) (Some 10) 5) as Htime
    by (split; lia).
  assert (key_selected None "frontDoor") as Hsel by exact I.
  repeat split; try done.
  destruct (yieldEvents_prefers_user_generated
              _ _ (Some 0) (Some 10) None 5 "frontDoor" Hrun Htime Hsel)
    as (evs & Hevs & Hboth & _).
  exists evs. split; [done|].
  by apply (Hboth Samples.opened5 Samples.closed5).
Defined.

(** C5, as the code has it. After every sequence of inserts and clears,
    [minTime] and [maxTime] bound the times of all stored events of either
    provenance; after a sequence of inserts alone they are the tightest
    bounds; and no later operation, insert or clear, shrinks the range
    between them. *)
Theorem bounds_cover_and_never_shrink ops s :
  run ops fresh = Some s →
  bounds_cover s ∧
  (forallb is_put ops = true → bounds_tight s) ∧
  (∀ ops' s', run ops' s = Some s' → bounds_extend s s').
Proof.
  intros Hrun.
  assert (store_inv s) as [Hdom _]
    by (eapply store_inv_run; [apply store_inv_fresh | done]).
  split; [by apply dom_covered_bounds_cover|]. split.
  - intros Hput. split; [by apply dom_covered_bounds_cover|].
    eapply bounds_attained_run; [done| |done].
    by split.
  - intros ops' s'. apply bounds_extend_run.
Qed.

Lemma bounds_cover_and_never_shrink_witness :
  run [Put PreGenerated [Samples.closed5];
       Put UserGenerated [Samples.opened5]] fresh = Some Samples.overridden ∧
  bounds_tight Samples.overridden.
Proof.
  assert (run [Put PreGenerated [Samples.closed5];
               Put UserGenerated [Samples.opened5]] fresh
          = Some Samples.overridden) as Hrun by reflexivity.
  split; [done|].
  by apply (bounds_cover_and_never_shrink _ _ Hrun).
Defined.

(** C5, as stated, fails: a user-generated event at time 100 extends
    [maxTime] to 100, clearing removes it and leaves [maxTime] at 100,
    where no event is stored any more. *)
Lemma bounds_not_tight_after_clear :
  ¬ (∀ ops s, run ops fresh = Some s → bounds_tight s).
Proof.
  intros Hclaim.
  assert (store_inv Samples.extended) as [Hdom _]
    by (do 2 apply store_inv_putEvents; apply store_inv_fresh).
  destruct (clear_total Samples.extended 0 100) as [s Hclear]; [done..|].
  assert (run [Put PreGenerated [Samples.doorEvent 0 false "initial value"];
               Put UserGenerated [Samples.doorEvent 100 true
                                    "opened by the user"];
               Clear] fresh = Some s) as Hrun by exact Hclear.
  destruct (Hclaim _ _ Hrun) as [_ [_ Hmax]].
  destruct (Hmax 100) as (k & ty & e & He).
  { destruct (clear_bounds _ _ Hclear) as [_ ->]. done. }
  rewrite (safeGetEvent_clear Samples.extended s) in He by done.
  destruct ty; [|done].
  unfold Samples.extended, putEvents in He. cbn [foldl] in He.
  rewrite !safeGetEvent_putEvent in He.
  rewrite decide_False in He by (intros (_ & _ & [=])).
  rewrite decide_False in He by (intros ([=] & _)).
  unfold safeGetEvent in He. simpl in He.
  rewrite lookup_empty in He. simpl in He.
  by rewrite lookup_empty in He.
Qed.

(** On a store built by its own operations and holding at least one
    time slot, clearing the user-generated events succeeds and removes
    exactly the user layer: no user-generated event remains, every
    pre-generated event is still found, [minTime] and [maxTime] are
    unchanged, and a range query without provenance yields the
    pre-generated event for every slot that had one. *)
Theorem clearUserGeneratedEvents_removes_only_user_layer ops s :
  run ops fresh = Some s →
  isEmpty s = false →
  ∃ s', clearUserGeneratedEvents s = Some s' ∧
    (∀ t k, safeGetUserGeneratedEvent s' t k = None) ∧
    (∀ t k, safeGetPreGeneratedEvent s' t k = safeGetPreGeneratedEvent s t k) ∧
    minTime s' = minTime s ∧
    maxTime s' = maxTime s ∧
    (∀ t k p startTime endTime stateKeys,
       safeGetPreGeneratedEvent s t k = Some p →
       in_timeframe s' startTime endTime t →
       key_selected stateKeys k →
       ∃ evs,
         yieldEvents s' startTime endTime stateKeys None = Some evs ∧
         filter (at_slot t k) evs = [p]).
Proof.
  intros Hrun Hnonempty.
  assert (store_inv s) as Hinv
    by (eapply store_inv_run; [apply store_inv_fresh | done]).
  pose proof Hinv as [Hdom _].
  unfold isEmpty in Hnonempty. apply bool_decide_eq_false in Hnonempty.
  apply map_choose in Hnonempty as (t0 & d0 & Ht0).
  destruct (Hdom t0) as (lo & hi & Hlo & Hhi & _); [by rewrite Ht0|].
  destruct (clear_total s lo hi Hlo Hhi) as [s' Hclear].
  assert (∀ t k ty, safeGetEvent s' t k ty =
            match ty with
            | UserGenerated => None
            | PreGenerated => safeGetEvent s t k PreGenerated
            end) as Hget
    by (intros; by apply safeGetEvent_clear).
  exists s'. split; [done|].
  split; [intros; apply Hget|]. split; [intros; apply Hget|].
  destruct (clear_bounds _ _ Hclear) as [Hmin Hmax].
  do 2 (split; [done|]).
  intros t k p startTime endTime stateKeys Hp Htime Hsel.
  destruct (filter_yieldEvents s' startTime endTime stateKeys t k)
    as (evs & Hevs & Hfilter);
    [by eapply store_inv_clear | done | done |].
  exists evs. split; [done|]. rewrite Hfilter.
  unfold safeGetUserGeneratedEvent, safeGetPreGeneratedEvent.
  rewrite !Hget. fold (safeGetPreGeneratedEvent s t k). by rewrite Hp.
Qed.

Lemma clearUserGeneratedEvents_removes_only_user_layer_witness :
  run [Put PreGenerated [Samples.closed5];
       Put UserGenerated [Samples.opened5]] fresh = Some Samples.overridden ∧
  isEmpty Samples.overridden = false ∧
  ∃ s', clearUserGeneratedEvents Samples.overridden = Some s' ∧
    safeGetUserGeneratedEvent s' 5 "frontDoor" = None ∧
    safeGetPreGeneratedEvent s' 5 "frontDoor" = Some Samples.closed5 ∧
    minTime s' = Some 5 ∧ maxTime s' = Some 5 ∧
    ∃ evs, yieldEvents s' None None None None = Some evs ∧
      filter (at_slot 5 "frontDoor") evs = [Samples.closed5].
Proof.
  assert (run [Put PreGenerated [Samples.closed5];
               Put UserGenerated [Samples.opened5]] fresh
          = Some Samples.overridden) as Hrun by reflexivity.
  assert (isEmpty Samples.overridden = false) as Hnonempty by reflexivity.
  do 2 (split; [done|]).
  destruct (clearUserGeneratedEvents_removes_only_user_layer _ _
              Hrun Hnonempty)
    as (s' & Hclear & Huser & Hpre & Hmin & Hmax & Hrange).
  exists s'. split; [done|]. split; [apply Huser|].
  split; [by rewrite Hpre|]. split; [by rewrite Hmin|].
  split; [by rewrite Hmax|].
  apply (Hrange 5 "frontDoor"%string Samples.closed5 None None None).
  - reflexivity.
  - unfold in_timeframe. rewrite Hmin, Hmax.
    split; exists 5; (split; [done|lia]).
  - exact I.
Defined.

(** C9, on the code: clearing reads [minTime] and [maxTime] without a
    guard.  On a store built by its own operations it raises exactly when
    no event was ever inserted, where the range query of the same store
    returns without events; the fresh store is such a store. *)
Theorem clearUserGeneratedEvents_raises_on_empty_store :
  clearUserGeneratedEvents fresh = None ∧
  yieldEvents fresh None None None None = Some [] ∧
  (∀ ops s, run ops fresh = Some s →
     (clearUserGeneratedEvents s = None ↔ isEmpty s = true) ∧
     (isEmpty s = true → yieldEvents s None None None None = Some [])).
Proof.
  split; [done|]. split; [done|]. intros ops s Hrun.
  assert (reachable s) as Hs by (by exists ops).
  pose proof (reachable_bounds_iff_nonempty s Hs) as [[Hmin Hmin'] _].
  split.
  - unfold clearUserGeneratedEvents, isEmpty. rewrite bool_decide_eq_true.
    split.
    + destruct (minTime s) as [lo|]; [|by auto].
      destruct (maxTime s) as [hi|] eqn:Hhi; [done|]. intros _.
      pose proof (reachable_bounds_iff_nonempty s Hs) as [_ [_ Hmax]].
      by apply Hmax.
    + intros Hempty. by rewrite (Hmin Hempty).
  - intros Hempty. unfold yieldEvents. by rewrite Hempty.
Qed.

Lemma clearUserGeneratedEvents_raises_on_empty_store_witness :
  run [Put PreGenerated []] fresh = Some fresh ∧
  clearUserGeneratedEvents fresh = None ∧
  isEmpty fresh = true.
Proof.
  assert (run [Put PreGenerated []] fresh = Some fresh) as Hrun
    by reflexivity.
  split; [done|].
  destruct clearUserGeneratedEvents_raises_on_empty_store as (_ & _ & Hall).
  destruct (Hall _ _ Hrun) as [Hiff _].
  split; [|done]. by apply Hiff.
Defined.
(** C6, on the code: the dictionary is a class attribute.  With two
    instances [storeA] and [storeB], the second is empty before anything
    is inserted; inserting one event into [storeA] makes [storeB]
    non-empty and makes that event retrievable from [storeB], which still
    has no [minTime], so that its range query over the full timeframe
    raises. *)
Theorem putEvents_on_one_instance_changes_the_other :
  ∃ h sB sB',
    putEvents_on Samples.two_stores Samples.storeA PreGenerated
      [Samples.closed5] = Some h ∧
    self Samples.two_stores Samples.storeB = Some sB ∧
    self h Samples.storeB = Some sB' ∧
    isEmpty sB = true ∧
    isEmpty sB' = false ∧
    safeGetPreGeneratedEvent sB' 5 "frontDoor" = Some Samples.closed5 ∧
    minTime sB' = None ∧
    yieldEvents sB' None None None None = None.
Proof.
  eexists _, _, _. split; [reflexivity|]. split; [reflexivity|].
  split; [reflexivity|]. by vm_compute.
Qed.

End EventStore_claims.

(** ** The clock *)

Section AppClock_claims.
Import AppClock.
Local Open Scope Q_scope.

Lemma started_start c now : started (start c now).
Proof. split; by eexists. Qed.

(** C1. On a started clock, [setSpeedupFactor(f)] with [f] within the
    configured bounds succeeds, sets the factor to [f], and a [time()]
    call that follows immediately (reading the wall clock at the instant
    [now2] of the re-anchoring) returns the value [time()] had inside the
    call; afterwards time advances from that value at rate [f], capped at
    [maxTime]. *)
Theorem setSpeedupFactor_keeps_time c now1 now2 f :
  started c →
  inject_Z Constants.MIN_SPEEDUP_FACTOR <= f
    <= inject_Z Constants.MAX_SPEEDUP_FACTOR →
  ∃ before c',
    time c now1 = Some before ∧
    setSpeedupFactor c now1 now2 f = Some c' ∧
    getSpeedupFactor c' = f ∧
    (∃ after, time c' now2 = Some after ∧ after == before) ∧
    (∀ now3, ∃ later,
       time c' now3 = Some later ∧
       later == Qmin (before + (now3 - now2) * f) (maxTime c)).
Proof.
  intros [[atz Hatz] [rtz Hrtz]] _.
  unfold setSpeedupFactor, time. rewrite Hatz, Hrtz. simpl.
  set (before := Qmin (atz + (now1 - rtz) * speedupFactor c) (maxTime c)).
  exists before. eexists. split; [done|]. split; [done|].
  split; [done|]. split.
  - eexists. split; [done|].
    pose proof (Q.le_min_r (atz + (now1 - rtz) * speedupFactor c) (maxTime c))
      as Hle. fold before in Hle.
    destruct (Q.min_spec (before + (now2 - now2) * f) (maxTime c))
      as [[_ ->]|[? ->]]; lra.
  - intros now3. eexists. split; [done|]. reflexivity.
Qed.

Lemma setSpeedupFactor_keeps_time_witness :
  started Samples.clock ∧
  inject_Z Constants.MIN_SPEEDUP_FACTOR <= 3600
    <= inject_Z Constants.MAX_SPEEDUP_FACTOR ∧
  ∃ c', setSpeedupFactor Samples.clock 1010 1010 3600 = Some c' ∧
    ∃ after, time c' 1010 = Some after ∧ after == 600.
Proof.
  assert (started Samples.clock) as Hstarted by apply started_start.
  assert (inject_Z Constants.MIN_SPEEDUP_FACTOR <= 3600
            <= inject_Z Constants.MAX_SPEEDUP_FACTOR) as Hf
    by (split; discriminate).
  do 2 (split; [done|]).
  destruct (setSpeedupFactor_keeps_time Samples.clock 1010 1010 3600
              Hstarted Hf)
    as (before & c' & Hbefore & Hset & _ & (after & Hafter & Heq) & _).
  exists c'. split; [done|]. exists after. split; [done|].
  rewrite Heq. injection Hbefore as <-. reflexivity.
Defined.

End AppClock_claims.

(** ** The formulas *)

Section Formulas_claims.
Import Formulas.
Local Open Scope Q_scope.

Lemma Qabs_cases (x : Q) :
  (0 <= x ∧ Qabs x == x) ∨ (x < 0 ∧ Qabs x == - x).
Proof.
  destruct (Qlt_le_dec x 0) as [Hneg|Hpos].
  - right. split; [done|]. apply Qabs_neg. lra.
  - left. split; [done|]. by apply Qabs_pos.
Qed.

(** C4, as the code has it. The electricity cost is the rate
    [0.12 / 1000 / 3600] times the usage times the length of the elapsed
    window: for one and the same usage it grows with the window, and it
    depends on the two only through their product.  The water cost is
    [2.52 / 100 / 7.48] times the gallons. *)
Theorem cost_conversions (electricityUsage totalTime waterUsage : Q) :
  electricityCost electricityUsage totalTime
    == (12 # 100) / 1000 / 3600 * electricityUsage * totalTime ∧
  electricityCost electricityUsage totalTime
    == totalTime * electricityCost electricityUsage 1 ∧
  (∀ electricityUsage' totalTime',
     electricityUsage * totalTime == electricityUsage' * totalTime' →
     electricityCost electricityUsage totalTime
       == electricityCost electricityUsage' totalTime') ∧
  waterCost waterUsage == (252 # 100) / 100 / (748 # 100) * waterUsage.
Proof.
  unfold electricityCost, waterCost.
  split; [reflexivity|]. split; [field|]. split; [|reflexivity].
  intros electricityUsage' totalTime' Hproduct.
  rewrite <-!Qmult_assoc. by rewrite Hproduct.
Qed.

(** C4, as stated, fails: one watt over a window of two seconds costs
    twice the rate. *)
Lemma electricityCost_depends_on_window :
  ¬ (∀ electricityUsage totalTime,
       electricityCost electricityUsage totalTime
         == (12 # 100) / 1000 / 3600 * electricityUsage).
Proof. intros Hclaim. specialize (Hclaim 1 2). discriminate Hclaim. Qed.

(** C7. For a non-negative elapsed window: within the dead band of 2
    degrees the HVAC step changes nothing and uses no electricity;
    otherwise it moves the indoor temperature towards the thermostat
    temperature by [m = min(|thermostat - indoor|, totalTime / 60)]
    degrees and uses [3500 * (runningSeconds / 3600)], where
    [runningSeconds = 60 * m] is the time needed at one degree per minute.
    From 60 to 70 degrees in 600 seconds the change is exactly 10 and the
    electricity is [3500 * 600 / 3600]. *)
Theorem hvac_step :
  (∀ indoorTemp thermostatTemp totalTime : Q,
     0 <= totalTime →
     let r :=
       hvacIndoorTempChangeAndElectricityUsage
         indoorTemp thermostatTemp totalTime in
     let m := Qmin (Qabs (thermostatTemp - indoorTemp)) (totalTime / 60) in
     (Qabs (thermostatTemp - indoorTemp) <= 2 → r.1 == 0 ∧ r.2 == 0) ∧
     (2 < Qabs (thermostatTemp - indoorTemp) →
        0 <= m ∧
        r.1 == (if Qlt_le_dec indoorTemp thermostatTemp then m else - m) ∧
        Qabs (thermostatTemp - (indoorTemp + r.1))
          == Qabs (thermostatTemp - indoorTemp) - m ∧
        r.2 == 3500 * (60 * m / 3600))) ∧
  (hvacIndoorTempChangeAndElectricityUsage 60 70 600).1 == 10 ∧
  (hvacIndoorTempChangeAndElectricityUsage 60 70 600).2
    == 3500 * 600 / 3600.
Proof.
  split; [|split; reflexivity].
  intros indoorTemp thermostatTemp totalTime.
  {
    intros Htime r m. subst r.
    assert (m == Qmin (Qabs (thermostatTemp - indoorTemp)) (1 / 60 * totalTime))
      as Hm.
    { subst m. apply Q.min_compat; [reflexivity | field]. }
    assert (0 <= m ∧ m <= Qabs (thermostatTemp - indoorTemp)) as [Hm0 Hm1].
    { subst m. split.
      - apply Q.min_glb; [apply Qabs_nonneg|].
        apply Qle_shift_div_l; [reflexivity | lra].
      - apply Q.le_min_l. }
    unfold hvacIndoorTempChangeAndElectricityUsage, isHvacRunning.
    destruct (Qlt_le_dec 2 (Qabs (thermostatTemp - indoorTemp)))
      as [Hrun|Hidle]; cbn [negb fst snd].
    - split; [intros ?; exfalso; lra|]. intros _.
      clearbody m.
      set (x := Qmin (Qabs (thermostatTemp - indoorTemp)) (1 / 60 * totalTime))
        in *.
      clearbody x.
      split; [exact Hm0|]. unfold direction, hvacElectricityUsage.
      assert (3500 / 3600 * (x / (1 / 60)) == 3500 * (60 * m / 3600)) as Hel
        by (rewrite Hm; field).
      destruct (Qabs_cases (thermostatTemp - indoorTemp)) as [[Hd Ha]|[Hd Ha]];
        destruct (Qlt_le_dec indoorTemp thermostatTemp) as [Hlt|Hge];
        try (exfalso; lra).
      + split; [lra|]. split.
        * destruct (Qabs_cases (thermostatTemp - (indoorTemp + 1 * x)))
            as [[? Hb]|[? Hb]]; lra.
        * exact Hel.
      + split; [lra|]. split.
        * destruct (Qabs_cases (thermostatTemp - (indoorTemp + -1 * x)))
            as [[? Hb]|[? Hb]]; lra.
        * exact Hel.
    - split; [|intros ?; exfalso; lra]. intros _. split; reflexivity.
  }
Qed.

(** The general part at the example: 10 degrees apart, 600 seconds. *)
Lemma hvac_step_witness :
  0 <= 600 ∧
  (hvacIndoorTempChangeAndElectricityUsage 60 70 600).1 == 10 ∧
  Qabs (70 - (60 + (hvacIndoorTempChangeAndElectricityUsage 60 70 600).1))
    == 0 ∧
  (hvacIndoorTempChangeAndElectricityUsage 60 70 600).2
    == 3500 * (600 / 3600).
Proof.
  assert (0 <= 600) as Htime by discriminate.
  split; [done|].
  destruct hvac_step as [Hgeneral _].
  destruct (Hgeneral 60 70 600 Htime) as [_ Hrun].
  destruct Hrun as (_ & Hchange & Htowards & Helectricity); [reflexivity|].
  split; [|split].
  - rewrite Hchange. reflexivity.
  - rewrite Htowards. reflexivity.
  - rewrite Helectricity. reflexivity.
Defined.

End Formulas_claims.

(** ** The usage accumulator *)

Section BooleanStateTracker_claims.
Import BooleanStateTracker.

Implicit Types (tr : BooleanStateTracker) (e : Event.Event).

(** What [processEvent] does on an event of the tracked key. *)
Lemma processEvent_cases tr e v :
  Event.new_value e = Event.VBool v →
  Event.state_key e = key tr →
  processEvent tr e =
  Some (if value tr && negb v then
          set_value_total tr v
            (totalTimeTrue tr + (Event.time e - lastTimeTrue tr))
        else if negb (value tr) && v then
          set_value_last tr v (Event.time e)
        else tr).
Proof.
  intros Hv Hk. unfold processEvent, bool_value. rewrite Hv. simpl.
  rewrite bool_decide_eq_true_2 by done. simpl.
  by destruct (value tr), v.
Qed.

(** C8, as the code has it. For an event of the tracked key: a
    false-to-true transition records the time of the event as
    [lastTimeTrue] and leaves the total; a true-to-false transition adds
    the time since [lastTimeTrue] to [totalTimeTrue], whatever the order
    of the two times; an event with the current value changes nothing, so
    that processing an event a second time in a row changes nothing.
    Processing true at 10, false at 40, true at 100 and false at 130 for
    one key, the first event creating the entry, leaves [totalTimeTrue]
    at 60. *)
Theorem processEvent_transitions :
  (∀ tr e v,
     Event.new_value e = Event.VBool v →
     Event.state_key e = key tr →
     ∃ tr', processEvent tr e = Some tr' ∧
       value tr' = v ∧
       (value tr = false → v = true →
          lastTimeTrue tr' = Event.time e ∧
          totalTimeTrue tr' = totalTimeTrue tr) ∧
       (value tr = true → v = false →
          totalTimeTrue tr' =
            totalTimeTrue tr + (Event.time e - lastTimeTrue tr) ∧
          lastTimeTrue tr' = lastTimeTrue tr) ∧
       (value tr = v → tr' = tr) ∧
       processEvent tr' e = Some tr') ∧
  (∃ m,
     BooleanStateTrackerMap.processEvents BooleanStateTrackerMap.init
       [Samples.doorEvent 10 true "opened";
        Samples.doorEvent 40 false "closed";
        Samples.doorEvent 100 true "opened";
        Samples.doorEvent 130 false "closed"] = Some m ∧
     totalTimeTrue <$> BooleanStateTrackerMap.tracker m "door" "frontDoor"
       = Some 60).
Proof.
  split.
  - intros tr e v Hv Hk. rewrite (processEvent_cases tr e v Hv Hk).
    destruct (value tr) eqn:Hvalue, v; cbn [andb negb];
      eexists; (split; [reflexivity|]);
      (split; [done|]); (split; [intros; done|]);
      (split; [intros; done|]); (split; [intros; done|]);
      rewrite (processEvent_cases _ e _ Hv) by done; simpl;
      rewrite ?Hvalue; done.
  - eexists. split; [by vm_compute|]. by vm_compute.
Qed.

Lemma processEvent_transitions_witness :
  init (Samples.doorEvent 10 true "opened") = Some Samples.trackedDoor ∧
  Event.new_value (Samples.doorEvent 40 false "closed")
    = Event.VBool false ∧
  Event.state_key (Samples.doorEvent 40 false "closed")
    = key Samples.trackedDoor ∧
  ∃ tr', processEvent Samples.trackedDoor
           (Samples.doorEvent 40 false "closed") = Some tr' ∧
    totalTimeTrue tr' = 30.
Proof.
  split; [by vm_compute|]. split; [reflexivity|]. split; [reflexivity|].
  destruct processEvent_transitions as [Hstep _].
  destruct (Hstep Samples.trackedDoor
              (Samples.doorEvent 40 false "closed") false eq_refl eq_refl)
    as (tr' & Hprocess & _ & _ & Hfalse & _).
  exists tr'. split; [exact Hprocess|].
  destruct Hfalse as [-> _]; reflexivity.
Defined.

(** C8, as stated, fails: the only guard is the current value, so a pair of
    events that arrives a second time is counted a second time.  Opened at
    10 and closed at 40, the door was open for 30; with both events
    repeated the total is 60. *)
Lemma repeated_events_count_twice :
  ¬ (∀ events m m' stateType stateKey,
       BooleanStateTrackerMap.processEvents BooleanStateTrackerMap.init events = Some m →
       BooleanStateTrackerMap.processEvents BooleanStateTrackerMap.init (events ++ events) = Some m' →
       BooleanStateTracker.totalTimeTrue <$> BooleanStateTrackerMap.tracker m' stateType stateKey
       = BooleanStateTracker.totalTimeTrue <$> BooleanStateTrackerMap.tracker m stateType stateKey).
Proof.
  intros Hclaim.
  assert (BooleanStateTrackerMap.processEvents BooleanStateTrackerMap.init
            [Samples.doorEvent 10 true "opened";
             Samples.doorEvent 40 false "closed"]
          = Some (Samples.closedDoors 30)) as Honce
    by (vm_cast_no_check (eq_refl (Some (Samples.closedDoors 30)))).
  assert (BooleanStateTrackerMap.processEvents BooleanStateTrackerMap.init
            ([Samples.doorEvent 10 true "opened";
              Samples.doorEvent 40 false "closed"]
             ++ [Samples.doorEvent 10 true "opened";
                 Samples.doorEvent 40 false "closed"])
          = Some (Samples.closedDoors 60)) as Htwice
    by (vm_cast_no_check (eq_refl (Some (Samples.closedDoors 60)))).
  specialize (Hclaim _ _ _ "door"%string "frontDoor"%string Honce Htwice).
  vm_compute in Hclaim. discriminate Hclaim.
Qed.
(** C2, as the code has it. Resetting zeroes [totalTimeTrue] and leaves the
    value and [lastTimeTrue] as they are; on an entry that is true, a
    following false event at time [t] adds [t - lastTimeTrue], the time
    since the transition to true. *)
Theorem resetTotalTimeTrue_keeps_lastTimeTrue tr e :
  value tr = true →
  Event.new_value e = Event.VBool false →
  Event.state_key e = key tr →
  totalTimeTrue (resetTotalTimeTrue tr) = 0 ∧
  value (resetTotalTimeTrue tr) = value tr ∧
  lastTimeTrue (resetTotalTimeTrue tr) = lastTimeTrue tr ∧
  ∃ tr', processEvent (resetTotalTimeTrue tr) e = Some tr' ∧
    totalTimeTrue tr' = Event.time e - lastTimeTrue tr.
Proof.
  intros Hvalue Hv Hk. do 3 (split; [done|]).
  eexists. split; [by apply processEvent_cases|].
  simpl. rewrite Hvalue. simpl. lia.
Qed.

Lemma resetTotalTimeTrue_keeps_lastTimeTrue_witness :
  value Samples.trackedDoor = true ∧
  Event.new_value (Samples.doorEvent 200 false "closed")
    = Event.VBool false ∧
  Event.state_key (Samples.doorEvent 200 false "closed")
    = key Samples.trackedDoor ∧
  ∃ tr', processEvent (resetTotalTimeTrue Samples.trackedDoor)
           (Samples.doorEvent 200 false "closed") = Some tr' ∧
    totalTimeTrue tr' = 190.
Proof.
  do 3 (split; [reflexivity|]).
  destruct (resetTotalTimeTrue_keeps_lastTimeTrue Samples.trackedDoor
              (Samples.doorEvent 200 false "closed")
              eq_refl eq_refl eq_refl)
    as (_ & _ & _ & tr' & Hprocess & Htotal).
  exists tr'. split; [exact Hprocess|]. exact Htotal.
Defined.

(** C2, as stated, fails: an entry true since 10, reset at the window
    boundary 100, then false at 200, holds 190 and not 200 - 100. *)
Lemma reset_does_not_restamp :
  ¬ (∀ tr resetTime e tr',
       value tr = true →
       lastTimeTrue tr ≤ resetTime ≤ Event.time e →
       Event.new_value e = Event.VBool false →
       processEvent (resetTotalTimeTrue tr) e = Some tr' →
       totalTimeTrue tr' = Event.time e - resetTime).
Proof.
  intros Hclaim.
  specialize (Hclaim Samples.trackedDoor 100
                (Samples.doorEvent 200 false "closed") _
                eq_refl ltac:(simpl; lia) eq_refl eq_refl).
  discriminate Hclaim.
Qed.

End BooleanStateTracker_claims.

(** ** The route of user-generated events *)

Section App_claims.
Import App.

(** C10, as the code has it. A submitted event with the thermostat key and
    a value outside [MIN_THERMOSTAT_TEMP, MAX_THERMOSTAT_TEMP] is answered
    with status 400 and a message, and the state is unchanged.  A
    well-typed one within the bounds is inserted once the clock has been
    started: the route answers with success, and the event is then found
    in the user-generated layer at the clock's time.  On a clock that was
    never started the route raises and nothing is inserted. *)
Theorem userGeneratedEvent_thermostat_bounds st now event :
  Event.isThermostatEvent event = true →
  let v := Event.int_value (Event.new_value event) in
  (v < Constants.MIN_THERMOSTAT_TEMP ∨ Constants.MAX_THERMOSTAT_TEMP < v →
     ∃ msg, userGeneratedEvent st now event = Some ((msg, 400), st) ∧
       msg ≠ ""%string ∧
       (Event.isUserGeneratedEvent event = true →
          msg = (if decide (v < Constants.MIN_THERMOSTAT_TEMP)
                 then "The thermostat temperature should not be less than 55"
                 else "The thermostat temperature should not be greater than 85")%string)) ∧
  (Constants.MIN_THERMOSTAT_TEMP ≤ v ≤ Constants.MAX_THERMOSTAT_TEMP →
     Event.isUserGeneratedEvent event = true →
     (AppClock.started (APP_CLOCK st) →
        ∃ t st',
          AppClock.time (APP_CLOCK st) now = Some t ∧
          userGeneratedEvent st now event = Some (SUCCESS, st') ∧
          APP_CLOCK st' = APP_CLOCK st ∧
          EventStore.safeGetUserGeneratedEvent (EVENT_STORE st')
            (AppClock.int t) "thermostatTemp"
          = Some (Event.set_time event (AppClock.int t))) ∧
     (¬ AppClock.started (APP_CLOCK st) →
        userGeneratedEvent st now event = None)).
Proof.
  intros Hthermostat v. unfold userGeneratedEvent. rewrite Hthermostat.
  fold v. split.
  - intros Hout.
    destruct (Event.isUserGeneratedEvent event); simpl.
    + destruct (decide (v < Constants.MIN_THERMOSTAT_TEMP)) as [Hlo|Hlo].
      * rewrite bool_decide_eq_true_2 by done. by eexists.
      * rewrite bool_decide_eq_false_2 by done.
        rewrite bool_decide_eq_true_2 by lia. by eexists.
    + eexists. split; [done|]. split; [done|]. done.
  - intros Hin ->. simpl.
    rewrite bool_decide_eq_false_2 by lia.
    rewrite bool_decide_eq_false_2 by lia.
    split.
    + intros [[atz Hatz] [rtz Hrtz]].
      assert (∃ t, AppClock.time (APP_CLOCK st) now = Some t) as [t Ht].
      { unfold AppClock.time. rewrite Hatz, Hrtz. by eexists. }
      exists t. rewrite Ht. simpl. eexists. split; [done|].
      split; [done|]. split; [done|]. simpl.
      unfold EventStore.safeGetUserGeneratedEvent,
        EventStore.putUserGeneratedEvents, EventStore.putEvents.
      cbn [foldl]. rewrite safeGetEvent_putEvent.
      apply decide_True. repeat split; try done. simpl.
      unfold Event.isThermostatEvent in Hthermostat.
      by apply bool_decide_eq_true in Hthermostat.
    + intros Hnot.
      assert (AppClock.time (APP_CLOCK st) now = None) as ->; [|done].
      unfold AppClock.time, AppClock.started in *.
      destruct (AppClock.realTimeZero (APP_CLOCK st)) as [rtz|]; [|done].
      destruct (AppClock.appTimeZero (APP_CLOCK st)) as [atz|]; [|done].
      exfalso. apply Hnot. split; by eexists.
Qed.

Lemma userGeneratedEvent_thermostat_bounds_witness :
  (Event.isThermostatEvent (Samples.thermostatEvent 0 90) = true ∧
   Constants.MAX_THERMOSTAT_TEMP < 90 ∧
   ∃ msg,
     userGeneratedEvent
       {| APP_CLOCK := Samples.clock; EVENT_STORE := Samples.overridden |}
       1010 (Samples.thermostatEvent 0 90)
     = Some ((msg, 400),
             {| APP_CLOCK := Samples.clock;
                EVENT_STORE := Samples.overridden |})) ∧
  (Event.isThermostatEvent (Samples.thermostatEvent 0 70) = true ∧
   Constants.MIN_THERMOSTAT_TEMP ≤ 70 ≤ Constants.MAX_THERMOSTAT_TEMP ∧
   Event.isUserGeneratedEvent (Samples.thermostatEvent 0 70) = true ∧
   AppClock.started Samples.clock ∧
   ∃ st',
     userGeneratedEvent
       {| APP_CLOCK := Samples.clock; EVENT_STORE := Samples.overridden |}
       1010 (Samples.thermostatEvent 0 70)
     = Some (SUCCESS, st') ∧
     EventStore.safeGetUserGeneratedEvent (EVENT_STORE st')
       600 "thermostatTemp"
     = Some (Samples.thermostatEvent 600 70)).
Proof.
  split.
  - assert (Event.isThermostatEvent (Samples.thermostatEvent 0 90) = true)
      as Hthermostat by reflexivity.
    assert (Constants.MAX_THERMOSTAT_TEMP < 90) as Hhigh by reflexivity.
    do 2 (split; [done|]).
    destruct (userGeneratedEvent_thermostat_bounds
                {| APP_CLOCK := Samples.clock;
                   EVENT_STORE := Samples.overridden |}
                1010 _ Hthermostat) as [Hout _].
    destruct Hout as (msg & Hanswer & _); [by right|].
    by exists msg.
  - assert (Event.isThermostatEvent (Samples.thermostatEvent 0 70) = true)
      as Hthermostat by reflexivity.
    assert (Constants.MIN_THERMOSTAT_TEMP ≤ 70
            ≤ Constants.MAX_THERMOSTAT_TEMP) as Hin
      by (unfold Constants.MIN_THERMOSTAT_TEMP,
            Constants.MAX_THERMOSTAT_TEMP; lia).
    assert (Event.isUserGeneratedEvent (Samples.thermostatEvent 0 70) = true)
      as Htyped by reflexivity.
    assert (AppClock.started Samples.clock) as Hstarted
      by (split; by eexists).
    do 4 (split; [done|]).
    destruct (userGeneratedEvent_thermostat_bounds
                {| APP_CLOCK := Samples.clock;
                   EVENT_STORE := Samples.overridden |}
                1010 _ Hthermostat) as [_ Hinsert].
    destruct (Hinsert Hin Htyped) as [Hstart _].
    destruct (Hstart Hstarted) as (t & st' & Ht & Hanswer & _ & Hstored).
    exists st'. split; [done|].
    injection Ht as <-. exact Hstored.
Defined.

(** C10, as stated, fails: on a clock that was never started, a well-typed
    thermostat event within the bounds is not inserted; reading the time of
    the clock raises. *)
Lemma userGeneratedEvent_before_start :
  ¬ (∀ st now event,
       Event.isThermostatEvent event = true →
       Event.isUserGeneratedEvent event = true →
       Constants.MIN_THERMOSTAT_TEMP
         ≤ Event.int_value (Event.new_value event)
         ≤ Constants.MAX_THERMOSTAT_TEMP →
       ∃ st', userGeneratedEvent st now event = Some (SUCCESS, st')).
Proof.
  intros Hclaim.
  destruct (Hclaim {| APP_CLOCK := Samples.unstarted;
                      EVENT_STORE := Samples.overridden |}
              1010%Q (Samples.thermostatEvent 0 70))
    as [st' Hanswer]; [done|done|simpl; unfold Constants.MIN_THERMOSTAT_TEMP,
            Constants.MAX_THERMOSTAT_TEMP; lia|].
  discriminate Hanswer.
Qed.
End App_claims.

